(** * CometWeb audit service: the task orchestration of [WebsiteAnalyzer]

    A shallow embedding of [backend/app/services/analyzer.py]: the task
    store, the module dispatcher of [run_analysis], the summary aggregator
    [_generate_summary], the persistence shim ([_save_results],
    [_load_results]) and the lookup [get_analysis_results]; and of the
    request handlers of [backend/app/endpoints/analyze.py] and
    [backend/app/endpoints/auth.py], as the Python functions they are
    (routing, request parsing and response validation belong to the
    framework).

    Conventions of the embedding.
    - Python values that the code treats as [Any] (module payloads) are
      the JSON-like type [value]; a Python [dict] with string keys inside a
      payload is an association list, the results mapping and the task
      store are [gmap string _].
    - A Python [int] is a [Z]; a [float] is the rational it denotes, a
      [Q].  The true division of two [int]s and the conversion of an [int]
      to a [float] round to the nearest binary64 number, ties to even, and
      raise [OverflowError] out of range, as CPython does.  Arithmetic
      between two [float]s is exact (no rounding, no infinities): what is
      proved about the overall score is stated for [int] scores.
    - Code that can raise is written in an error monad; [try]/[except
      Exception] is [try_except].  Only exceptions deriving from
      [Exception] are modelled.
    - The process is sequential: one call runs from start to end. *)

From Stdlib Require Import ZArith QArith Qabs Qpower String Ascii List Bool.
From Stdlib Require Import Lia Lqa Sorted.
From stdpp Require Import base gmap strings list fin_maps.

Set Warnings "-register-all,-clear-no-such-hyp".
Local Open Scope string_scope.
Local Open Scope Z_scope.
Local Open Scope list_scope.

(** ** Python values *)

Inductive value : Type :=
| VNone
| VBool (b : bool)
| VInt (z : Z)
| VFloat (q : Q)
| VStr (s : string)
| VList (l : list value)
| VDict (d : list (string * value)).

(** A [Dict[str, Any]]: keys are unique, lookup finds the binding. *)
Abbreviation pydict := (list (string * value)).

Fixpoint dict_get (k : string) (d : pydict) : option value :=
  match d with
  | [] => None
  | (k', v) :: d' => if String.eqb k k' then Some v else dict_get k d'
  end.

(** [k in d] for a dict [d]. *)
Definition dict_has (k : string) (d : pydict) : bool :=
  match dict_get k d with Some _ => true | None => false end.

(** ** Exceptions and fallible computations *)

Inductive exn : Type :=
| Exc (cls : string) (msg : string).

(** [str(e)] *)
Definition str (e : exn) : string :=
  match e with Exc _ msg => msg end.

Inductive outcome (A : Type) : Type :=
| Ok (a : A)
| Raise (e : exn).
Arguments Ok {A} a.
Arguments Raise {A} e.

#[global] Instance outcome_ret : MRet outcome := fun A a => Ok a.
#[global] Instance outcome_bind : MBind outcome := fun A B f m =>
  match m with
  | Ok a => f a
  | Raise e => Raise e
  end.

Definition type_error {A : Type} (msg : string) : outcome A :=
  Raise (Exc "TypeError" msg).

(** ** The arithmetic and container operators used by the aggregator *)

(** The rational a Python number denotes, as [>] compares it: [bool]
    is a subclass of [int]; everything else a payload can hold is not a
    number. *)
Definition as_number (v : value) : option Q :=
  match v with
  | VInt z => Some (inject_Z z)
  | VFloat q => Some q
  | VBool b => Some (if b then 1%Q else 0%Q)
  | _ => None
  end.

(** A Python number: an [int], of any size, or a [float]. *)
Inductive number : Type :=
| Int (z : Z)
| Float (q : Q).

(** The number an object is as an operand of [+]. *)
Definition number_of (v : value) : option number :=
  match v with
  | VInt z => Some (Int z)
  | VBool b => Some (Int (if b then 1 else 0))
  | VFloat q => Some (Float q)
  | _ => None
  end.

(** The integer nearest to [num / den], the even one of two that are
    equally near ([0 <= num], [0 < den]). *)
Definition round_half_even (num den : Z) : Z :=
  let q := num / den in
  let r := num mod den in
  match 2 * r ?= den with
  | Lt => q
  | Gt => q + 1
  | Eq => if Z.even q then q else q + 1
  end.

(** The binade of [a / n]: the [k] with [2^k <= a / n < 2^(k+1)]
    ([0 < a], [0 < n]). *)
Definition binade (a n : Z) : Z :=
  let k0 := Z.log2 a - Z.log2 n in
  if n * 2 ^ Z.max k0 0 <=? a * 2 ^ Z.max (- k0) 0 then k0 else k0 - 1.

(** The exponent of the unit in the last place of a binary64 number in
    the binade of [a / n]: 53 significant bits, and no exponent below
    that of the subnormal numbers. *)
Definition ulp_exponent (a n : Z) : Z := Z.max (binade a n - 52) (-1074).

(** The binary64 number nearest to [a / n], ties to even, for [n <> 0];
    none when the rounded quotient reaches [2^1024]. *)
Definition nearest_float (a n : Z) : option Q :=
  if a =? 0 then Some 0%Q
  else
    let e := ulp_exponent (Z.abs a) (Z.abs n) in
    let N := 2 ^ Z.max (- e) 0 in
    let P := 2 ^ Z.max e 0 in
    let m := round_half_even (Z.abs a * N) (Z.abs n * P) in
    if 2 ^ 1024 * N <=? m * P then None
    else Some (Qred (Z.sgn a * Z.sgn n * (m * P) # Z.to_pos N)).

(** [float(z)], the conversion that [+] and [/] apply to an [int]
    operand beside a [float]. *)
Definition float_of_int (z : Z) : outcome Q :=
  match nearest_float z 1 with
  | Some q => Ok q
  | None => Raise (Exc "OverflowError" "int too large to convert to float")
  end.

(** [a / n] for two [int]s: the correctly rounded quotient. *)
Definition int_true_divide (a n : Z) : outcome Q :=
  if n =? 0 then Raise (Exc "ZeroDivisionError" "division by zero")
  else
    match nearest_float a n with
    | Some q => Ok q
    | None =>
        Raise (Exc "OverflowError"
                 "integer division result too large for a float")
    end.

(** [a + b]: exact on two [int]s; an [int] beside a [float] is converted
    first. *)
Definition py_add (a b : number) : outcome number :=
  match a, b with
  | Int x, Int y => Ok (Int (x + y))
  | Int x, Float q => p ← float_of_int x; Ok (Float (p + q)%Q)
  | Float p, Int y => q ← float_of_int y; Ok (Float (p + q)%Q)
  | Float p, Float q => Ok (Float (p + q)%Q)
  end.

(** [acc + x1 + ... + xn], left to right, as the builtin [sum] adds. *)
Fixpoint py_sum_from (acc : number) (xs : list value) : outcome number :=
  match xs with
  | [] => Ok acc
  | x :: xs' =>
      match number_of x with
      | Some n => acc' ← py_add acc n; py_sum_from acc' xs'
      | None => type_error "unsupported operand type(s) for +"
      end
  end.

(** [sum(xs)]: starts from the integer 0. *)
Definition py_sum (xs : list value) : outcome number :=
  py_sum_from (Int 0) xs.

(** [a / n] for an [int] [n]. *)
Definition py_truediv (a : number) (n : Z) : outcome Q :=
  match a with
  | Int z => int_true_divide z n
  | Float q =>
      if n =? 0 then Raise (Exc "ZeroDivisionError" "float division by zero")
      else d ← float_of_int n; Ok (q / d)%Q
  end.

(** [v > n] for an integer literal [n]. *)
Definition py_gt (v : value) (n : Z) : outcome bool :=
  match as_number v with
  | Some q => Ok (if Qlt_le_dec (inject_Z n) q then true else false)
  | None => type_error "'>' not supported between these instances"
  end.

(** [needle in hay] for two strings: substring test. *)
Fixpoint str_contains (needle hay : string) : bool :=
  if String.prefix needle hay then true
  else match hay with
       | EmptyString => false
       | String _ hay' => str_contains needle hay'
       end.

(** [k == v] for a string [k]: only an equal string is equal to it. *)
Definition str_eq_value (k : string) (v : value) : bool :=
  match v with
  | VStr s => String.eqb k s
  | _ => false
  end.

(** [k in x] for a string [k] and an arbitrary object [x]. *)
Definition py_contains (k : string) (x : value) : outcome bool :=
  match x with
  | VDict d => Ok (dict_has k d)
  | VList l => Ok (existsb (str_eq_value k) l)
  | VStr s => Ok (str_contains k s)
  | VNone | VBool _ | VInt _ | VFloat _ =>
      type_error "argument is not iterable"
  end.

(** [x[k]] for a string [k]. *)
Definition py_getitem (x : value) (k : string) : outcome value :=
  match x with
  | VDict d =>
      match dict_get k d with
      | Some v => Ok v
      | None => Raise (Exc "KeyError" k)
      end
  | VList _ => type_error "list indices must be integers or slices, not str"
  | VStr _ => type_error "string indices must be integers, not 'str'"
  | VNone | VBool _ | VInt _ | VFloat _ =>
      type_error "object is not subscriptable"
  end.

(** ** The summary *)

Record issues : Type := Issues {
  critical : Z;
  important : Z;
  moderate : Z;
  minor : Z
}.

Record recommendation : Type := Recommendation {
  category : string;
  priority : string;
  title : string;
  description : string
}.

Record summary : Type := Summary {
  overall_score : value;
  metrics : gmap string value;
  summary_issues : issues;
  recommendations : list recommendation
}.

Definition set_metric (k : string) (v : value) (s : summary) : summary :=
  Summary (overall_score s) (<[k := v]> (metrics s)) (summary_issues s)
          (recommendations s).

Definition set_overall_score (v : value) (s : summary) : summary :=
  Summary v (metrics s) (summary_issues s) (recommendations s).

Definition fcp_recommendation : recommendation :=
  Recommendation "performance" "important" "Improve First Contentful Paint"
    "First Contentful Paint is too slow. Consider optimizing server response time and critical rendering path.".

(** [summary["recommendations"].append(...)] followed by
    [summary["issues"]["important"] += 1]. *)
Definition add_fcp_recommendation (s : summary) : summary :=
  let i := summary_issues s in
  Summary (overall_score s) (metrics s)
          (Issues (critical i) (important i + 1) (moderate i) (minor i))
          (recommendations s ++ [fcp_recommendation]).

(** One of the three "if name in results: ... if field in entry: ..."
    blocks: appends the field to [scores] and records it as a metric. *)
Definition collect_score (name field : string)
    (results : gmap string pydict) (acc : list value * summary)
  : list value * summary :=
  match results !! name with
  | Some entry =>
      match dict_get field entry with
      | Some v => (acc.1 ++ [v], set_metric name v acc.2)
      | None => acc
      end
  | None => acc
  end.

Definition _generate_summary (results : gmap string pydict)
  : outcome summary :=
  let summary0 :=
    Summary (VInt 0) ∅ (Issues 0 0 0 0) [] in
  let acc := ([], summary0) in
  let acc := collect_score "performance" "lighthouse_score" results acc in
  let acc := collect_score "seo" "score" results acc in
  let acc := collect_score "accessibility" "score" results acc in
  let '(scores, summary1) := acc in
  summary2 ←
    match scores with
    | [] => Ok summary1
    | _ :: _ =>
        total ← py_sum scores;
        mean ← py_truediv total (Z.of_nat (length scores));
        Ok (set_overall_score (VFloat mean) summary1)
    end;
  match results !! "performance" with
  | Some perf =>
      match dict_get "metrics" perf with
      | Some perf_metrics =>
          has_fcp ← py_contains "first_contentful_paint" perf_metrics;
          if (has_fcp : bool) then
            fcp ← py_getitem perf_metrics "first_contentful_paint";
            slow ← py_gt fcp 2000;
            if (slow : bool) then Ok (add_fcp_recommendation summary2)
            else Ok summary2
          else Ok summary2
      | None => Ok summary2
      end
  | None => Ok summary2
  end.

(** ** Task records, the task store and the disk *)

(** The four values of [task["status"]]. *)
Inductive status : Type := Pending | Running | Completed | Error.

Definition status_str (s : status) : string :=
  match s with
  | Pending => "pending"
  | Running => "running"
  | Completed => "completed"
  | Error => "error"
  end.

(** The dict built by [start_analysis]; the keys [summary],
    [completed_at] and [error] are absent until [run_analysis] adds them. *)
Record task : Type := Task {
  t_status : status;
  t_url : string;
  t_modules : list string;
  t_depth : Z;
  t_device : string;
  t_timestamp : string;
  t_results : gmap string pydict;
  t_started_at : string;
  t_summary : option summary;
  t_completed_at : option string;
  t_error : option string
}.

Definition set_status (s : status) (t : task) : task :=
  Task s (t_url t) (t_modules t) (t_depth t) (t_device t) (t_timestamp t)
       (t_results t) (t_started_at t) (t_summary t) (t_completed_at t)
       (t_error t).

Definition set_results (r : gmap string pydict) (t : task) : task :=
  Task (t_status t) (t_url t) (t_modules t) (t_depth t) (t_device t)
       (t_timestamp t) r (t_started_at t) (t_summary t) (t_completed_at t)
       (t_error t).

(** [task["results"][name] = payload] *)
Definition set_result (name : string) (payload : pydict) (t : task) : task :=
  set_results (<[name := payload]> (t_results t)) t.

Definition set_summary (s : summary) (t : task) : task :=
  Task (t_status t) (t_url t) (t_modules t) (t_depth t) (t_device t)
       (t_timestamp t) (t_results t) (t_started_at t) (Some s)
       (t_completed_at t) (t_error t).

Definition set_completed_at (ts : string) (t : task) : task :=
  Task (t_status t) (t_url t) (t_modules t) (t_depth t) (t_device t)
       (t_timestamp t) (t_results t) (t_started_at t) (t_summary t) (Some ts)
       (t_error t).

Definition set_error (msg : string) (t : task) : task :=
  Task (t_status t) (t_url t) (t_modules t) (t_depth t) (t_device t)
       (t_timestamp t) (t_results t) (t_started_at t) (t_summary t)
       (t_completed_at t) (Some msg).

(** What [json.load] finds in a per-task file.  The only writer of these
    files is [_save_results], which dumps a whole task record; a file that
    cannot be read back (truncated by a failed dump, not JSON, not
    readable) is [FileUnreadable]. *)
Inductive file : Type :=
| FileRecord (t : task)
| FileUnreadable.

(** The process-wide dict [analysis_tasks] and the files under
    [storage_dir]. *)
Record world : Type := World {
  analysis_tasks : gmap string task;
  disk : gmap string file
}.

Inductive level : Type := INFO | WARNING | ERROR.

(** What a call leaves behind besides its result and the final world:
    the lines given to the logger, and every write to a task record, in
    program order.  [Stored id t] says that the record of [id] has just
    become [t]; it is what a reader of the store would see from then on. *)
Inductive event : Type :=
| Logged (lvl : level) (msg : string)
| Stored (task_id : string) (t : task).

(** ** The monad of the analyzer's methods *)

Definition M (A : Type) : Type := world -> outcome A * world * list event.

#[global] Instance M_ret : MRet M := fun A a w => (Ok a, w, []).

#[global] Instance M_bind : MBind M := fun A B f m w =>
  match m w with
  | (Ok a, w1, ev1) =>
      match f a w1 with
      | (r, w2, ev2) => (r, w2, ev1 ++ ev2)
      end
  | (Raise e, w1, ev1) => (Raise e, w1, ev1)
  end.

(** [try: body except Exception as e: handler e] *)
Definition try_except {A : Type} (body : M A) (handler : exn -> M A) : M A :=
  fun w =>
    match body w with
    | (Ok a, w1, ev1) => (Ok a, w1, ev1)
    | (Raise e, w1, ev1) =>
        match handler e w1 with
        | (r, w2, ev2) => (r, w2, ev1 ++ ev2)
        end
    end.

(** A computation that touches neither the store nor the disk. *)
Definition lift {A : Type} (o : outcome A) : M A := fun w => (o, w, []).

Definition logger (lvl : level) (msg : string) : M unit :=
  fun w => (Ok tt, w, [Logged lvl msg]).

(** [task_id in analysis_tasks] *)
Definition task_in (task_id : string) : M bool :=
  fun w =>
    (Ok (match analysis_tasks w !! task_id with
         | Some _ => true
         | None => false
         end), w, []).

(** [analysis_tasks[task_id]].  In [run_analysis] the local [task] is an
    alias of this entry, so every read through [task] is a read of the
    entry and every write through [task] is a write to it. *)
Definition task_of (task_id : string) : M task :=
  fun w =>
    match analysis_tasks w !! task_id with
    | Some t => (Ok t, w, [])
    | None => (Raise (Exc "KeyError" task_id), w, [])
    end.

(** [analysis_tasks[task_id] = t] *)
Definition task_insert (task_id : string) (t : task) : M unit :=
  fun w =>
    (Ok tt, World (<[task_id := t]> (analysis_tasks w)) (disk w),
     [Stored task_id t]).

(** An assignment [task[key] = v] through the alias. *)
Definition task_update (task_id : string) (f : task -> task) : M unit :=
  fun w =>
    match analysis_tasks w !! task_id with
    | Some t =>
        (Ok tt, World (<[task_id := f t]> (analysis_tasks w)) (disk w),
         [Stored task_id (f t)])
    | None => (Ok tt, w, [])
    end.

Fixpoint for_each {B : Type} (l : list B) (body : B -> M unit) : M unit :=
  match l with
  | [] => mret tt
  | x :: l' => body x;; for_each l' body
  end.

(** ** The analysis modules *)

(** The five module methods of the class.  [run_analysis] calls them
    through [self]; each returns a payload or raises. *)
Record analyzers : Type := Analyzers {
  _analyze_performance : string -> string -> outcome pydict;
  _analyze_seo : string -> Z -> outcome pydict;
  _analyze_accessibility : string -> outcome pydict;
  _analyze_technology_stack : string -> outcome pydict;
  _analyze_carbon_emissions : string -> outcome pydict
}.

(** How an attempt to write a per-task file ends. *)
Inductive write_outcome : Type :=
| WriteOk
| OpenFails (e : exn)
| DumpFails (e : exn).

Definition storage_dir : string := "data/analysis_results".

(** [os.path.join(self.storage_dir, f"{task_id}.json")] *)
Definition filename_of (task_id : string) : string :=
  storage_dir +:+ "/" +:+ task_id +:+ ".json".

(** ** The methods of [WebsiteAnalyzer] *)

Section WebsiteAnalyzer.

(** The module methods, the file system's answer to a write, and the
    reading of [datetime.now().isoformat()] at completion. *)
Variable self : analyzers.
Variable fs_write : string -> write_outcome.
Variable clock : string.

(** [start_analysis]; [uuid4] and [now] are the values drawn by
    [uuid.uuid4()] and [datetime.now().isoformat()]. *)
Definition start_analysis (uuid4 now : string)
    (url : string) (modules : list string) (depth : Z) (device : string)
  : M string :=
  let task_id := uuid4 in
  let timestamp := now in
  task_insert task_id
    (Task Pending url modules depth device timestamp ∅ timestamp
          None None None);;
  logger INFO
    ("Analysis task " +:+ task_id +:+ " created for URL: " +:+ url);;
  mret task_id.

(** [with open(filename, 'w') as f: json.dump(task, f, indent=2)] *)
Definition write_json (filename : string) (t : task) : M unit :=
  fun w =>
    match fs_write filename with
    | WriteOk =>
        (Ok tt,
         World (analysis_tasks w) (<[filename := FileRecord t]> (disk w)),
         [])
    | OpenFails e => (Raise e, w, [])
    | DumpFails e =>
        (Raise e,
         World (analysis_tasks w) (<[filename := FileUnreadable]> (disk w)),
         [])
    end.

Definition _save_results (task_id : string) (t : task) : M unit :=
  try_except
    (let filename := filename_of task_id in
     write_json filename t)
    (fun e =>
       logger ERROR
         ("Failed to save results for task " +:+ task_id +:+ ": "
          +:+ str e)).

(** [if os.path.exists(filename): with open(filename, 'r') as f:
    return json.load(f)], falling through to [return None]. *)
Definition read_json (filename : string) : M (option task) :=
  fun w =>
    match disk w !! filename with
    | Some (FileRecord t) => (Ok (Some t), w, [])
    | Some FileUnreadable =>
        (Raise (Exc "JSONDecodeError" "Expecting value"), w, [])
    | None => (Ok None, w, [])
    end.

Definition _load_results (task_id : string) : M (option task) :=
  try_except
    (let filename := filename_of task_id in
     read_json filename)
    (fun e =>
       logger ERROR
         ("Failed to load results for task " +:+ task_id +:+ ": "
          +:+ str e);;
       mret None).

(** A loaded record is a non-empty dict, so [if loaded_task:] holds
    exactly when [_load_results] returned a record. *)
Definition get_analysis_results (task_id : string) : M (option task) :=
  present ← task_in task_id;
  if negb present then
    loaded_task ← _load_results task_id;
    match loaded_task with
    | Some t => mret (Some t)
    | None => mret None
    end
  else
    t ← task_of task_id;
    mret (Some t).

(** The body of the [for] loop of [run_analysis] for one name: the
    inner [try] with its [if]/[elif] chain, [continue] for an unknown
    name, and the [except] clause. *)
Definition dispatch (task_id module_name : string) : M unit :=
  try_except
    (logger INFO
       ("Running module '" +:+ module_name +:+ "' for task " +:+ task_id);;
     task ← task_of task_id;
     called ←
       (if String.eqb module_name "performance" then
          results ← lift (_analyze_performance self
                            (t_url task) (t_device task));
          mret (Some results)
        else if String.eqb module_name "seo" then
          results ← lift (_analyze_seo self (t_url task) (t_depth task));
          mret (Some results)
        else if String.eqb module_name "accessibility" then
          results ← lift (_analyze_accessibility self (t_url task));
          mret (Some results)
        else if String.eqb module_name "technology" then
          results ← lift (_analyze_technology_stack self (t_url task));
          mret (Some results)
        else if String.eqb module_name "carbon" then
          results ← lift (_analyze_carbon_emissions self (t_url task));
          mret (Some results)
        else
          logger WARNING
            ("Unknown module '" +:+ module_name +:+ "', skipping");;
          mret None);
     match called with
     | Some results => task_update task_id (set_result module_name results)
     | None => mret tt
     end)
    (fun e =>
       logger ERROR
         ("Error in module '" +:+ module_name +:+ "' for task "
          +:+ task_id +:+ ": " +:+ str e);;
       task_update task_id
         (set_result module_name [("error", VStr (str e))])).

Definition run_analysis (task_id : string) : M unit :=
  present ← task_in task_id;
  if negb present then
    logger ERROR ("Task " +:+ task_id +:+ " not found")
  else
    task_of task_id;;
    task_update task_id (set_status Running);;
    try_except
      (task ← task_of task_id;
       logger INFO
         ("Starting analysis for task " +:+ task_id +:+ " ("
          +:+ t_url task +:+ ")");;
       for_each (t_modules task) (dispatch task_id);;
       task ← task_of task_id;
       s ← lift (_generate_summary (t_results task));
       task_update task_id (set_summary s);;
       task_update task_id (set_status Completed);;
       task_update task_id (set_completed_at clock);;
       task ← task_of task_id;
       _save_results task_id task;;
       logger INFO ("Analysis completed for task " +:+ task_id))
      (fun e =>
         logger ERROR
           ("Error in analysis task " +:+ task_id +:+ ": " +:+ str e);;
         task_update task_id (set_status Error);;
         task_update task_id (set_error (str e))).

End WebsiteAnalyzer.

(** ** The placeholder modules of the source *)

Definition placeholder_performance (url device : string) : outcome pydict :=
  Ok [ ("lighthouse_score", VInt 85);
       ("metrics", VDict
          [ ("first_contentful_paint", VInt 1200);
            ("speed_index", VInt 1800);
            ("largest_contentful_paint", VInt 2500);
            ("time_to_interactive", VInt 3200);
            ("total_blocking_time", VInt 250);
            ("cumulative_layout_shift", VFloat 0.12) ]);
       ("opportunities", VList
          [ VDict
              [ ("title", VStr "Properly size images");
                ("description", VStr "Serve images that are appropriately-sized to save cellular data and improve load time.");
                ("score", VInt 80) ];
            VDict
              [ ("title", VStr "Eliminate render-blocking resources");
                ("description", VStr "Resources are blocking the first paint of your page. Consider delivering critical JS/CSS inline and deferring all non-critical JS/styles.");
                ("score", VInt 65) ] ]) ].

Definition placeholder_seo (url : string) (depth : Z) : outcome pydict :=
  Ok [ ("score", VInt 78);
       ("on_page", VDict
          [ ("title", VDict
               [ ("found", VBool true);
                 ("value", VStr "Example Website - Home Page");
                 ("length", VInt 26);
                 ("score", VInt 85) ]);
            ("meta_description", VDict
               [ ("found", VBool true);
                 ("value", VStr "This is an example website description that would appear in search results.");
                 ("length", VInt 74);
                 ("score", VInt 90) ]);
            ("headings", VDict
               [ ("h1_count", VInt 1);
                 ("h2_count", VInt 5);
                 ("h3_count", VInt 8);
                 ("score", VInt 95) ]) ]);
       ("issues", VList
          [ VDict
              [ ("type", VStr "warning");
                ("message", VStr "Meta description could be more descriptive") ];
            VDict
              [ ("type", VStr "info");
                ("message", VStr "Consider adding more internal links to important pages") ] ]) ].

Definition placeholder_accessibility (url : string) : outcome pydict :=
  Ok [ ("score", VInt 72);
       ("wcag_compliance", VDict
          [ ("a", VInt 95); ("aa", VInt 80); ("aaa", VInt 45) ]);
       ("issues", VList
          [ VDict
              [ ("type", VStr "error");
                ("wcag", VStr "1.1.1");
                ("message", VStr "Images must have alternate text");
                ("elements", VInt 3) ];
            VDict
              [ ("type", VStr "warning");
                ("wcag", VStr "1.4.3");
                ("message", VStr "Text contrast ratio should be at least 4.5:1");
                ("elements", VInt 5) ] ]) ].

Definition placeholder_technology_stack (url : string) : outcome pydict :=
  Ok [ ("frameworks", VList
          [ VDict [ ("name", VStr "React"); ("version", VStr "17.0.2");
                    ("confidence", VInt 95) ];
            VDict [ ("name", VStr "Bootstrap"); ("version", VStr "5.1.0");
                    ("confidence", VInt 90) ] ]);
       ("server", VDict
          [ ("name", VStr "Nginx"); ("version", VStr "1.20.0");
            ("confidence", VInt 100) ]);
       ("analytics", VList
          [ VDict [ ("name", VStr "Google Analytics"); ("version", VStr "GA4");
                    ("confidence", VInt 100) ] ]);
       ("cdn", VDict
          [ ("name", VStr "Cloudflare"); ("confidence", VInt 95) ]) ].

Definition placeholder_carbon_emissions (url : string) : outcome pydict :=
  Ok [ ("co2_per_visit", VFloat 0.78);
       ("energy_consumption", VFloat 0.00025);
       ("cleaner_than", VInt 65);
       ("transfer_size", VFloat 2.4);
       ("recommendations", VList
          [ VStr "Optimize images to reduce file size";
            VStr "Use a green hosting provider";
            VStr "Implement lazy loading for below-the-fold content" ]) ].

(** The class as written: every module is its placeholder. *)
Definition placeholders : analyzers :=
  Analyzers placeholder_performance placeholder_seo
            placeholder_accessibility placeholder_technology_stack
            placeholder_carbon_emissions.

(** ** The endpoints of [endpoints/analyze.py] and [endpoints/auth.py] *)

(** How a request handler ends: it returns a value, raises an
    [HTTPException], or lets another exception escape. *)
Inductive response (A : Type) : Type :=
| Returned (a : A)
| HTTPException (status_code : Z) (detail : string)
                (headers : list (string * string))
| Uncaught (e : exn).
Arguments Returned {A} a.
Arguments HTTPException {A} status_code detail headers.
Arguments Uncaught {A} e.

(** A handler that works on the task store and the disk. *)
Definition handler (A : Type) : Type :=
  world -> response A * world * list event.

(** [WebsiteAnalyzer()]: [__init__] sets [storage_dir] and calls
    [os.makedirs(self.storage_dir, exist_ok=True)]; [makedirs] is how that
    call ends. *)
Definition WebsiteAnalyzer (makedirs : outcome unit) : M unit :=
  lift makedirs.

(** [try: body except Exception as e: logger.error(log + str(e)); raise
    HTTPException(status_code=500, detail=detail + str(e))] *)
Definition or_500 {A : Type} (body : M A) (log detail : string) : handler A :=
  fun w =>
    match body w with
    | (Ok a, w1, ev) => (Returned a, w1, ev)
    | (Raise e, w1, ev) =>
        (HTTPException 500 (detail +:+ str e) [], w1,
         ev ++ [Logged ERROR (log +:+ str e)])
    end.

Module analyze.

Record AnalysisRequest : Type := {
  url : string;
  modules : list string;
  depth : Z;
  device : string
}.

(** The defaults of the request model. *)
Definition default_request (u : string) : AnalysisRequest :=
  {| url := u;
     modules := ["performance"; "seo"; "accessibility"; "technology";
                 "carbon"];
     depth := 1;
     device := "desktop" |}.

Record AnalysisResponse : Type := {
  task_id : string;
  status : string;
  message : string
}.

(** [analyze_website].  The value returned goes with the list of the
    identifiers given to [background_tasks.add_task(analyzer.run_analysis,
    task_id=...)]; nothing is scheduled when the handler raises. *)
Definition analyze_website (makedirs : outcome unit) (uuid4 now : string)
    (request : AnalysisRequest)
  : handler (AnalysisResponse * list string) :=
  fun w =>
    match
      or_500
        (WebsiteAnalyzer makedirs;;
         id ← start_analysis uuid4 now (url request) (modules request)
                (depth request) (device request);
         mret ({| task_id := id;
                  status := "pending";
                  message := "Analysis started successfully. Use the task ID to check status." |},
               [id]))
        "Error starting analysis: " "Failed to start analysis: " w
    with
    | (r, w1, ev) =>
        (r, w1,
         Logged INFO ("Received analysis request for URL: " +:+ url request)
         :: ev)
    end.

(** [get_analysis_results] of the router.  The [HTTPException] raised for
    a missing result sits inside the [try] and is raised again unchanged by
    [except HTTPException: raise]; a task record is a non-empty dict, so
    [if not result] holds exactly for [None]. *)
Definition get_analysis_results (makedirs : outcome unit) (id : string)
  : handler task :=
  fun w =>
    match
      or_500 (WebsiteAnalyzer makedirs;; get_analysis_results id)
        "Error retrieving analysis results: "
        "Failed to retrieve analysis results: " w
    with
    | (Returned (Some result), w1, ev) => (Returned result, w1, ev)
    | (Returned None, w1, ev) =>
        (HTTPException 404 "Analysis task not found" [], w1, ev)
    | (HTTPException c d h, w1, ev) => (HTTPException c d h, w1, ev)
    | (Uncaught e, w1, ev) => (Uncaught e, w1, ev)
    end.

End analyze.

(** [s.split(sep)] for a separator of one character: the fields between
    the occurrences of [sep], empty fields included. *)
Fixpoint str_split (sep : ascii) (s : string) : list string :=
  match s with
  | EmptyString => [EmptyString]
  | String a s' =>
      if Ascii.eqb a sep then EmptyString :: str_split sep s'
      else match str_split sep s' with
           | field :: fields => String a field :: fields
           | [] => [String a EmptyString]
           end
  end.

Module auth.

Record User : Type := {
  username : string;
  email : option string;
  disabled : option bool
}.

(** [class UserInDB(User)]: the fields of [User] and the password hash. *)
Record UserInDB : Type := {
  user : User;
  hashed_password : string
}.

Definition fake_users_db : gmap string UserInDB :=
  {[ "admin" :=
       {| user := {| username := "admin";
                     email := Some "admin@example.com";
                     disabled := Some false |};
          hashed_password :=
            "$2b$12$EixZaYVK1fsbw1ZfbX3OXePaWxn96p36WQoeG6Lruj3vjPGga31lW" |} ]}.

Record Token : Type := {
  access_token : string;
  token_type : string
}.

Definition unauthorized {A : Type} (detail : string) : response A :=
  HTTPException 401 detail [("WWW-Authenticate", "Bearer")].

(** [login_for_access_token]; [timestamp] is the text of
    [datetime.now().timestamp()] in the f-string.  An entry of the
    database is a non-empty dict, so [not user] holds exactly when the
    name is unknown. *)
Definition login_for_access_token (form_username form_password : string)
    (timestamp : string) : response Token :=
  match fake_users_db !! form_username with
  | None => unauthorized "Incorrect username or password"
  | Some _ =>
      if negb (String.eqb form_password "password") then
        unauthorized "Incorrect username or password"
      else
        Returned
          {| access_token :=
               "fake-token-" +:+ form_username +:+ "-" +:+ timestamp;
             token_type := "bearer" |}
  end.

(** [read_users_me]; the [User] built from the entry keeps the fields
    of [User]. *)
Definition read_users_me (token : string) : response User :=
  if negb (String.prefix "fake-token-" token) then
    unauthorized "Invalid authentication credentials"
  else
    match nth_error (str_split "-"%char token) 2 with
    | None => Uncaught (Exc "IndexError" "list index out of range")
    | Some name =>
        match fake_users_db !! name with
        | None => unauthorized "Invalid authentication credentials"
        | Some u => Returned (user u)
        end
    end.

End auth.

(** * The vocabulary of the properties *)

(** ** Scores and their mean *)

(** The score the aggregator looks for in the entry of module [name]. *)
Definition score_of (name field : string) (results : gmap string pydict)
  : option value :=
  entry ← results !! name; dict_get field entry.

(** The scores that are present, among [lighthouse_score] of the
    performance entry and [score] of the seo and accessibility entries. *)
Definition present_scores (results : gmap string pydict) : list value :=
  omap (fun p : string * string => score_of p.1 p.2 results)
       [ ("performance", "lighthouse_score");
         ("seo", "score");
         ("accessibility", "score") ].

Definition Qsum (qs : list Q) : Q := fold_right Qplus 0%Q qs.

(** The arithmetic mean, and 0 for no number at all. *)
Definition arithmetic_mean (qs : list Q) : Q :=
  match qs with
  | [] => 0%Q
  | _ :: _ => (Qsum qs / inject_Z (Z.of_nat (length qs)))%Q
  end.

Definition numeric (v : value) : Prop := is_Some (as_number v).

(** The [int] a score is, when it is one ([bool] is a subclass of
    [int]). *)
Definition int_of (v : value) : option Z :=
  match v with
  | VInt z => Some z
  | VBool b => Some (if b then 1 else 0)
  | _ => None
  end.

Definition Zsum (zs : list Z) : Z := fold_right Z.add 0 zs.

(** The binary64 numbers: 53 significant bits, the unit in the last
    place from [2^-1074] (the subnormal numbers) to [2^971]. *)
Definition binary64 (q : Q) : Prop :=
  exists m e : Z,
    Z.abs m < 2 ^ 53 /\ -1074 <= e <= 971 /\ (q == inject_Z m * 2 ^ e)%Q.

(** [q] is a binary64 number, and none is nearer to [x]. *)
Definition nearest_binary64 (x q : Q) : Prop :=
  binary64 q /\
  forall q', binary64 q' -> (Qabs (x - q) <= Qabs (x - q'))%Q.

(** Half a unit in the last place below [2^1024]: from here on a number
    rounds out of the binary64 range. *)
Definition float_overflow : Q := (2 ^ 1024 - 2 ^ 970)%Q.

(** The input of the recommendation rule is as the modules produce it:
    [metrics], when the performance entry has it, is a dict, and its
    [first_contentful_paint], when present, is a number. *)
Definition metrics_well_typed (results : gmap string pydict) : Prop :=
  forall perf pm,
    results !! "performance" = Some perf ->
    dict_get "metrics" perf = Some pm ->
    exists d, pm = VDict d /\
      forall v, dict_get "first_contentful_paint" d = Some v -> numeric v.

(** An entry written by the [except] clause of the dispatcher. *)
Definition error_marker (msg : string) : pydict := [("error", VStr msg)].

Definition absent_or_error (results : gmap string pydict) (name : string)
  : Prop :=
  results !! name = None \/ exists msg, results !! name = Some (error_marker msg).

(** The [if scores:] block of [_generate_summary] as a function of the
    collected scores and of the summary built so far. *)
Definition averaged (scores : list value) (s1 : summary) : outcome summary :=
  match scores with
  | [] => Ok s1
  | _ :: _ =>
      total ← py_sum scores;
      mean ← py_truediv total (Z.of_nat (length scores));
      Ok (set_overall_score (VFloat mean) s1)
  end.

(** ** Names, entries and histories *)

(** The names the dispatcher has a branch for. *)
Definition recognized : gset string :=
  {[ "performance"; "seo"; "accessibility"; "technology"; "carbon" ]}.

(** The statuses a task record went through, oldest first, as the writes
    to the record show them. *)
Definition status_history (task_id : string) (evs : list event)
  : list status :=
  omap (fun ev =>
          match ev with
          | Stored i t =>
              if decide (i = task_id) then Some (t_status t) else None
          | Logged _ _ => None
          end) evs.

(** A write to the record of [task_id] that leaves its status at [st],
    or a log line. *)
Definition keeps_status (task_id : string) (st : status) (ev : event)
  : Prop :=
  match ev with
  | Stored i t' => i = task_id /\ t_status t' = st
  | Logged _ _ => True
  end.

(** The invocation the [if]/[elif] chain makes for a name: [None] for a
    name without a branch. *)
Definition module_call (self : analyzers) (t : task) (m : string)
  : option (outcome pydict) :=
  if String.eqb m "performance" then
    Some (_analyze_performance self (t_url t) (t_device t))
  else if String.eqb m "seo" then
    Some (_analyze_seo self (t_url t) (t_depth t))
  else if String.eqb m "accessibility" then
    Some (_analyze_accessibility self (t_url t))
  else if String.eqb m "technology" then
    Some (_analyze_technology_stack self (t_url t))
  else if String.eqb m "carbon" then
    Some (_analyze_carbon_emissions self (t_url t))
  else None.

(** What ends up under the module's name: its payload, or the error
    marker of what it raised. *)
Definition entry_of (o : outcome pydict) : pydict :=
  match o with
  | Ok payload => payload
  | Raise e => error_marker (str e)
  end.

(** The record after the loop body ran for the name [m]. *)
Definition dispatched (self : analyzers) (t : task) (m : string) : task :=
  match module_call self t m with
  | Some o => set_result m (entry_of o) t
  | None => t
  end.

(** ** The records and events of one run *)

(** The record when the loop over [task["modules"]] is done. *)
Definition after_modules (self : analyzers) (t : task) : task :=
  foldl (dispatched self) (set_status Running t) (t_modules t).

(** The record of a run whose summary was [s]. *)
Definition finished (clock : string) (t1 : task) (s : summary) : task :=
  set_completed_at clock (set_status Completed (set_summary s t1)).

(** The record of a run stopped by [e]. *)
Definition failed (t1 : task) (e : exn) : task :=
  set_error (str e) (set_status Error t1).

Definition saved_disk (fs_write : string -> write_outcome)
    (task_id : string) (tf : task)
    (d : gmap string file) : gmap string file :=
  match fs_write (filename_of task_id) with
  | WriteOk => <[filename_of task_id := FileRecord tf]> d
  | OpenFails _ => d
  | DumpFails _ => <[filename_of task_id := FileUnreadable]> d
  end.

Definition save_events (fs_write : string -> write_outcome)
    (task_id : string) : list event :=
  match fs_write (filename_of task_id) with
  | WriteOk => []
  | OpenFails e | DumpFails e =>
      [Logged ERROR
         ("Failed to save results for task " +:+ task_id +:+ ": "
          +:+ str e)]
  end.

Definition run_events_ok (self : analyzers)
    (fs_write : string -> write_outcome) (clock : string)
    (task_id : string) (t : task) (s : summary)
  : list event :=
  let t1 := after_modules self t in
  [ Stored task_id (set_summary s t1);
    Stored task_id (set_status Completed (set_summary s t1));
    Stored task_id (finished clock t1 s) ]
  ++ save_events fs_write task_id
  ++ [Logged INFO ("Analysis completed for task " +:+ task_id)].

Definition run_events_failed (self : analyzers)
    (task_id : string) (t : task) (e : exn)
  : list event :=
  let t1 := after_modules self t in
  [ Logged ERROR
      ("Error in analysis task " +:+ task_id +:+ ": " +:+ str e);
    Stored task_id (set_status Error t1);
    Stored task_id (failed t1 e) ].

(** ** The status along the life of a task *)

(** The order of the lifecycle: pending, then running, then one of the
    two final statuses; a status is related to itself and to the statuses
    that may come later. *)
Definition status_leb (a b : status) : bool :=
  match a, b with
  | Pending, _ => true
  | Running, (Running | Completed | Error) => true
  | Completed, Completed => true
  | Error, Error => true
  | _, _ => false
  end.

Definition status_forward (a b : status) : Prop := status_leb a b = true.

Definition final_status (st : status) : Prop := st = Completed \/ st = Error.

(** ** The input of the recommendation rule *)

(** The number the rule compares with 2000: the [first_contentful_paint]
    of the [metrics] dict of the performance entry. *)
Definition fcp_of (results : gmap string pydict) : option Q :=
  perf ← results !! "performance";
  pm ← dict_get "metrics" perf;
  match pm with
  | VDict d => v ← dict_get "first_contentful_paint" d; as_number v
  | _ => None
  end.

Definition slow_fcp (results : gmap string pydict) : bool :=
  match fcp_of results with
  | Some q => if Qlt_le_dec 2000 q then true else false
  | None => false
  end.

(** The summary before the scores are averaged: the metrics collected by
    the three blocks, no issue, no recommendation. *)
Definition collected (results : gmap string pydict) : list value * summary :=
  collect_score "accessibility" "score" results
    (collect_score "seo" "score" results
       (collect_score "performance" "lighthouse_score" results
          ([], Summary (VInt 0) ∅ (Issues 0 0 0 0) []))).

(** Two lists of names that request the same modules. *)
(** An identifier that holds no path separator: the path of its
    per-task file is the storage directory, a separator and the file
    name, and no other identifier of this kind names that file. *)
Definition plain_id (task_id : string) : bool :=
  negb (str_contains "/" task_id).

Definition same_names (ms ms' : list string) : Prop :=
  forall m, m ∈ ms <-> m ∈ ms'.

(** The record of a task as [start_analysis] creates it. *)
Definition created (url : string) (modules : list string) (depth : Z)
    (device : string) (now : string) : task :=
  Task Pending url modules depth device now ∅ now None None None.

(** The messages of the warnings among the events of a call. *)
Definition warnings (evs : list event) : list string :=
  omap (fun ev =>
          match ev with
          | Logged WARNING msg => Some msg
          | _ => None
          end) evs.

(** ** Concrete records, analyzers and file systems *)

Definition example_modules : list string :=
  ["performance"; "bogus"; "seo"; "performance"].

(** The record [start_analysis] creates for the request. *)
Definition example_task : task :=
  Task Pending "https://example.com" example_modules 1 "desktop"
       "2024-05-01T10:00:00" ∅ "2024-05-01T10:00:00" None None None.

Definition example_world : world :=
  (start_analysis "task-1" "2024-05-01T10:00:00" "https://example.com"
     example_modules 1 "desktop" (World ∅ ∅)).1.2.

(** A class whose seo module fails. *)
Definition seo_down : analyzers :=
  Analyzers placeholder_performance
            (fun _ _ => Raise (Exc "TimeoutError" "seo crawl timed out"))
            placeholder_accessibility placeholder_technology_stack
            placeholder_carbon_emissions.

(** A class whose seo module reports its score as text. *)
Definition seo_textual : analyzers :=
  Analyzers placeholder_performance
            (fun _ _ => Ok [("score", VStr "n/a")])
            placeholder_accessibility placeholder_technology_stack
            placeholder_carbon_emissions.

Definition fs_ok : string -> write_outcome := fun _ => WriteOk.

Definition fs_read_only : string -> write_outcome :=
  fun _ => OpenFails (Exc "PermissionError" "Permission denied").

Definition example_results : gmap string pydict :=
  <["seo" := entry_of (placeholder_seo "https://example.com" 1)]>
    (<["performance" :=
         entry_of (placeholder_performance "https://example.com" "desktop")]>
       ∅).

Definition example_summary : summary :=
  Summary (VFloat (163 # 2))
          (<["seo" := VInt 78]> (<["performance" := VInt 85]> ∅))
          (Issues 0 0 0 0) [].

(** Results whose first contentful paint is above, and exactly at, the
    threshold of the recommendation rule. *)
(** The three scores of the placeholder modules, and a score beyond the
    range of a [float]. *)
Definition placeholder_scores : gmap string pydict :=
  {[ "performance" := [("lighthouse_score", VInt 85)];
     "seo" := [("score", VInt 78)];
     "accessibility" := [("score", VInt 72)] ]}.

Definition huge_score : gmap string pydict :=
  {[ "performance" := [("lighthouse_score", VInt (10 ^ 400))] ]}.

Definition slow_paint_results : gmap string pydict :=
  {[ "performance" :=
       [("metrics", VDict [("first_contentful_paint", VInt 2500)])] ]}.

Definition threshold_paint_results : gmap string pydict :=
  {[ "performance" :=
       [("metrics", VDict [("first_contentful_paint", VInt 2000)])] ]}.

(** A request that names no module of the dispatcher. *)
Definition unknown_task : task :=
  created "https://example.com" ["bogus"; "lighthouse"] 1 "desktop"
          "2024-05-01T10:00:00".

Definition unknown_world : world :=
  World {[ "task-9" := unknown_task ]} ∅.

(** The world after the run of the example task. *)
Definition finished_world : world :=
  (run_analysis placeholders fs_ok "2024-05-01T10:00:07" "task-1"
     example_world).1.2.

(** * Properties *)

(** ** Rounding to binary64

    [nearest_float] is the binary64 number nearest to the quotient, and
    is out of range exactly from half a unit in the last place below
    [2^1024] on. *)

Lemma pow2_pos (e : Z) : (0 < 2 ^ e)%Q.
Proof. apply Qpower_0_lt. reflexivity. Qed.

Lemma pow2_add (a b : Z) : (2 ^ (a + b) == 2 ^ a * 2 ^ b)%Q.
Proof. apply Qpower_plus. discriminate. Qed.

Lemma pow2_le (a b : Z) : a <= b -> (2 ^ a <= 2 ^ b)%Q.
Proof. intros H. apply Qpower_le_compat_l; [exact H|]. discriminate. Qed.

Lemma pow2_inject (z : Z) : 0 <= z -> (inject_Z (2 ^ z) == 2 ^ z)%Q.
Proof. intros H. rewrite Zpower_Qpower by exact H. reflexivity. Qed.

Lemma pow2_split (e : Z) :
  (2 ^ e * inject_Z (2 ^ Z.max (- e) 0) == inject_Z (2 ^ Z.max e 0))%Q.
Proof.
  rewrite !pow2_inject by lia. rewrite <- pow2_add.
  replace (e + Z.max (- e) 0) with (Z.max e 0) by lia. reflexivity.
Qed.

(** [round_half_even] returns the floor of the quotient or the integer
    after it, whichever is nearer, and the even one at equal distance. *)
Lemma round_half_even_cases (num den : Z) :
  0 < den ->
  let fl := num / den in
  let m := round_half_even num den in
  let r := num - den * fl in
  den * fl <= num < den * (fl + 1) /\
  ((m = fl /\ (2 * r < den \/ (2 * r = den /\ Z.even fl = true))) \/
   (m = fl + 1 /\ (den < 2 * r \/ (2 * r = den /\ Z.even fl = false)))).
Proof.
  intros Hden fl m r.
  pose proof (Z.div_mod num den ltac:(lia)) as Hdm.
  pose proof (Z.mod_pos_bound num den Hden) as Hr.
  fold fl in Hdm. split; [lia|].
  subst m r. unfold round_half_even. fold fl.
  destruct (Z.compare_spec (2 * (num mod den)) den) as [H|H|H].
  - destruct (Z.even fl) eqn:Hev; [left|right]; split; lia.
  - left; split; lia.
  - right; split; lia.
Qed.

(** The difference of the bit lengths is the binade of the quotient or
    the one above it. *)
Lemma log2_bracket (a n : Z) :
  0 < a -> 0 < n ->
  let k0 := Z.log2 a - Z.log2 n in
  (2 ^ (k0 - 1) * inject_Z n < inject_Z a /\
   inject_Z a < 2 ^ (k0 + 1) * inject_Z n)%Q.
Proof.
  intros Ha Hn k0.
  destruct (Z.log2_spec a Ha) as [Ha1 Ha2].
  destruct (Z.log2_spec n Hn) as [Hn1 Hn2].
  pose proof (Z.log2_nonneg a) as Hla. pose proof (Z.log2_nonneg n) as Hln.
  rewrite Zle_Qle in Ha1, Hn1. rewrite Zlt_Qlt in Ha2, Hn2.
  rewrite pow2_inject in Ha1, Ha2, Hn1, Hn2 by lia.
  assert (2 ^ Z.log2 a == 2 ^ (k0 - 1) * 2 ^ Z.succ (Z.log2 n))%Q as E1.
  { rewrite <- pow2_add. subst k0.
    replace (Z.log2 a - Z.log2 n - 1 + Z.succ (Z.log2 n)) with (Z.log2 a)
      by lia.
    reflexivity. }
  assert (2 ^ Z.succ (Z.log2 a) == 2 ^ (k0 + 1) * 2 ^ (Z.log2 n))%Q as E2.
  { rewrite <- pow2_add. subst k0.
    replace (Z.log2 a - Z.log2 n + 1 + Z.log2 n) with (Z.succ (Z.log2 a))
      by lia.
    reflexivity. }
  pose proof (pow2_pos (k0 - 1)) as P1. pose proof (pow2_pos (k0 + 1)) as P2.
  split.
  - apply Qlt_le_trans with (2 ^ Z.log2 a)%Q; [|exact Ha1].
    rewrite E1. apply Qmult_lt_l; assumption.
  - apply Qlt_le_trans with (2 ^ Z.succ (Z.log2 a))%Q; [exact Ha2|].
    rewrite E2. apply Qmult_le_l; assumption.
Qed.

Lemma binade_spec (a n : Z) :
  0 < a -> 0 < n ->
  (2 ^ binade a n * inject_Z n <= inject_Z a /\
   inject_Z a < 2 ^ (binade a n + 1) * inject_Z n)%Q.
Proof.
  intros Ha Hn. destruct (log2_bracket a n Ha Hn) as [Hlo Hhi].
  unfold binade. set (k0 := Z.log2 a - Z.log2 n) in *.
  pose proof (pow2_split k0) as Hs.
  assert (0 < inject_Z (2 ^ Z.max (- k0) 0))%Q as HW.
  { rewrite pow2_inject by lia. apply pow2_pos. }
  destruct (Z.leb_spec (n * 2 ^ Z.max k0 0) (a * 2 ^ Z.max (- k0) 0)) as [H|H].
  - split; [|exact Hhi].
    rewrite Zle_Qle, !inject_Z_mult, <- Hs in H.
    apply Qmult_le_r with (z := inject_Z (2 ^ Z.max (- k0) 0)); [exact HW|].
    lra.
  - split; [apply Qlt_le_weak; exact Hlo|].
    replace (k0 - 1 + 1) with k0 by lia.
    rewrite Zlt_Qlt, !inject_Z_mult, <- Hs in H.
    apply Qmult_lt_r with (z := inject_Z (2 ^ Z.max (- k0) 0)); [exact HW|].
    lra.
Qed.

Section Binary64.

Local Open Scope Q_scope.

Lemma inject_Z_pos (z : Z) : (0 < z)%Z -> 0 < inject_Z z.
Proof. intros H. change 0 with (inject_Z 0). rewrite <- Zlt_Qlt. exact H. Qed.

(** The quotient on the grid of its last place. *)
Lemma grid_facts (a n : Z) :
  (0 < a)%Z -> (0 < n)%Z ->
  let e := ulp_exponent a n in
  let num := (a * 2 ^ Z.max (- e) 0)%Z in
  let den := (n * 2 ^ Z.max e 0)%Z in
  let fl := (num / den)%Z in
  let m := round_half_even num den in
  exists X : Q,
    X * 2 ^ e * inject_Z n == inject_Z a /\
    (inject_Z fl <= X /\ X < inject_Z fl + 1) /\
    ((m = fl /\ (2 * (X - inject_Z fl) < 1 \/
                 (2 * (X - inject_Z fl) == 1 /\ Z.even fl = true))) \/
     (m = (fl + 1)%Z /\ (1 < 2 * (X - inject_Z fl) \/
                 (2 * (X - inject_Z fl) == 1 /\ Z.even fl = false)))) /\
    (2 ^ binade a n <= X * 2 ^ e /\ X * 2 ^ e < 2 ^ (binade a n + 1)).
Proof.
  intros Ha Hn e num den fl m.
  assert (0 < 2 ^ Z.max e 0)%Z as HP by (apply Z.pow_pos_nonneg; lia).
  assert (0 < 2 ^ Z.max (- e) 0)%Z as HN by (apply Z.pow_pos_nonneg; lia).
  assert (0 < den)%Z as Hden by (subst den; lia).
  pose proof (pow2_split e) as Hs. pose proof (pow2_pos e) as HE.
  pose proof (inject_Z_pos _ Hn) as Hn'.
  pose proof (inject_Z_pos _ HN) as HN'.
  pose proof (inject_Z_pos _ Hden) as Hden'.
  exists (inject_Z num / inject_Z den).
  assert (inject_Z num / inject_Z den * 2 ^ e * inject_Z n == inject_Z a) as HX.
  { subst num den. rewrite !inject_Z_mult, <- Hs. field.
    repeat split; apply Qnot_eq_sym, Qlt_not_eq; assumption. }
  assert (forall j : Z,
            inject_Z den * (inject_Z num / inject_Z den - inject_Z j)
            == inject_Z (num - den * j)) as Hsc.
  { intros j. unfold Z.sub. rewrite inject_Z_plus, inject_Z_opp, inject_Z_mult.
    field. apply Qnot_eq_sym, Qlt_not_eq; assumption. }
  destruct (round_half_even_cases num den Hden) as [[Hfl1 Hfl2] Hm].
  fold fl in Hfl1, Hfl2, Hm. fold m in Hm.
  assert (forall (j c : Z) ,
            (c * (num - den * j) < den)%Z <->
            inject_Z c * (inject_Z num / inject_Z den - inject_Z j) < 1) as Hlt.
  { intros j c. rewrite Zlt_Qlt, inject_Z_mult, <- Hsc.
    split; intros H.
    - apply Qmult_lt_l with (z := inject_Z den); [exact Hden'|]. lra.
    - apply (Qmult_lt_l _ _ (inject_Z den)) in H; [|exact Hden']. lra. }
  assert (forall (j c : Z) ,
            (den < c * (num - den * j))%Z <->
            1 < inject_Z c * (inject_Z num / inject_Z den - inject_Z j)) as Hgt.
  { intros j c. rewrite Zlt_Qlt, inject_Z_mult, <- Hsc.
    split; intros H.
    - apply Qmult_lt_l with (z := inject_Z den); [exact Hden'|]. lra.
    - apply (Qmult_lt_l _ _ (inject_Z den)) in H; [|exact Hden']. lra. }
  assert (forall (j c : Z) ,
            (c * (num - den * j) = den)%Z <->
            inject_Z c * (inject_Z num / inject_Z den - inject_Z j) == 1) as Heq.
  { intros j c. rewrite <- inject_Z_injective, inject_Z_mult, <- Hsc.
    split; intros H.
    - apply Qmult_inj_l with (z := inject_Z den);
        [apply Qnot_eq_sym, Qlt_not_eq; exact Hden'|]. lra.
    - apply (Qmult_inj_l _ _ (inject_Z den)) in H;
        [|apply Qnot_eq_sym, Qlt_not_eq; exact Hden']. lra. }
  split; [exact HX|]. split; [|split].
  - split.
    + destruct (Qlt_le_dec (inject_Z num / inject_Z den) (inject_Z fl))
        as [Hc|Hc]; [|exact Hc].
      exfalso.
      assert (inject_Z den * (inject_Z num / inject_Z den - inject_Z fl)
              < inject_Z den * 0) as H2.
      { apply Qmult_lt_l; [exact Hden'|]. lra. }
      rewrite Hsc in H2. setoid_replace (inject_Z den * 0) with (inject_Z 0)
        using relation Qeq in H2 by (change (inject_Z 0) with 0; ring).
      rewrite <- Zlt_Qlt in H2. lia.
    + assert (1 * (num - den * fl) < den)%Z as H1 by lia.
      apply Hlt in H1. change (inject_Z 1) with 1 in H1. lra.
  - change 2 with (inject_Z 2). rewrite <- !Hlt, <- !Hgt, <- !Heq.
    exact Hm.
  - destruct (binade_spec a n Ha Hn) as [Hk1 Hk2]. rewrite <- HX in Hk1, Hk2.
    split.
    + apply Qmult_le_r with (z := inject_Z n); assumption.
    + apply Qmult_lt_r with (z := inject_Z n); assumption.
Qed.

Lemma Zle_inject (a b : Z) : (a <= b)%Z -> inject_Z a <= inject_Z b.
Proof. rewrite Zle_Qle. auto. Qed.

Lemma inject_Zlt (a b : Z) : inject_Z a < inject_Z b -> (a < b)%Z.
Proof. rewrite Zlt_Qlt. auto. Qed.

(** An integer below a rational is below its floor. *)
Lemma floor_ge (X : Q) (fl j : Z) :
  X < inject_Z fl + 1 -> inject_Z j <= X -> (j <= fl)%Z.
Proof.
  intros H1 H2. assert (inject_Z j < inject_Z (fl + 1)) as H.
  { rewrite inject_Z_plus. change (inject_Z 1) with 1. lra. }
  apply inject_Zlt in H. lia.
Qed.

Lemma inject_Z_sub (a b : Z) : inject_Z (a - b) == inject_Z a - inject_Z b.
Proof. unfold Z.sub. rewrite inject_Z_plus, inject_Z_opp. reflexivity. Qed.

Lemma pow2_lt_inv (a b : Z) : 2 ^ a < 2 ^ b -> (a < b)%Z.
Proof. intros H. apply (Qpower_lt_compat_l_inv 2); [exact H|reflexivity]. Qed.

Lemma pow2_lt (a b : Z) : (a < b)%Z -> 2 ^ a < 2 ^ b.
Proof. intros H. apply Qpower_lt_compat_l; [exact H|reflexivity]. Qed.

(** A binary64 number is a multiple of every finer unit, and lies below
    2^53 units of its own. *)
Lemma binary64_multiple (m' e' e : Z) :
  (e <= e')%Z ->
  exists j : Z, inject_Z m' * 2 ^ e' == inject_Z j * 2 ^ e.
Proof.
  intros H. exists (m' * 2 ^ (e' - e))%Z.
  rewrite inject_Z_mult, pow2_inject by lia.
  rewrite <- Qmult_assoc, <- pow2_add.
  replace (e' - e + e)%Z with e' by lia. reflexivity.
Qed.

Lemma binary64_below (m' e' e : Z) :
  (Z.abs m' < 2 ^ 53)%Z -> (e' < e)%Z ->
  inject_Z m' * 2 ^ e' <= 2 ^ 52 * 2 ^ e.
Proof.
  intros Hm He.
  assert (inject_Z m' <= 2 ^ 53) as H1.
  { rewrite <- pow2_inject by lia. apply Zle_inject. lia. }
  pose proof (pow2_pos e') as P1.
  apply Qle_trans with (2 ^ 53 * 2 ^ e').
  - apply Qmult_le_compat_r; [exact H1|lra].
  - rewrite <- !pow2_add. apply pow2_le. lia.
Qed.

Section Quotient.

Variables (X E x L : Q) (fl m e k : Z).
Hypothesis HE : E == 2 ^ e.
Hypothesis Hx : x == X * E.
Hypothesis HL : L == inject_Z fl * E.
Hypothesis He : e = Z.max (k - 52) (-1074).
Hypothesis Hfl : inject_Z fl <= X /\ X < inject_Z fl + 1.
Hypothesis Hm :
  (m = fl /\ (2 * (X - inject_Z fl) < 1 \/
              (2 * (X - inject_Z fl) == 1 /\ Z.even fl = true))) \/
  (m = (fl + 1)%Z /\ (1 < 2 * (X - inject_Z fl) \/
              (2 * (X - inject_Z fl) == 1 /\ Z.even fl = false))).
Hypothesis Hk : 2 ^ k <= x /\ x < 2 ^ (k + 1).

Lemma unit_pos : 0 < E.
Proof. rewrite HE. apply pow2_pos. Qed.

Lemma floor_bracket : L <= x /\ x < L + E.
Proof.
  pose proof unit_pos as P. rewrite Hx, HL. destruct Hfl as [H1 H2]. split.
  - apply Qmult_le_compat_r; [exact H1|lra].
  - setoid_replace (inject_Z fl * E + E) with ((inject_Z fl + 1) * E)
      using relation Qeq by ring.
    apply Qmult_lt_compat_r; assumption.
Qed.

Lemma rounded_cases :
  (inject_Z m * E == L /\ 2 * (x - L) <= E) \/
  (inject_Z m * E == L + E /\ E <= 2 * (x - L)).
Proof.
  pose proof unit_pos as P.
  assert (2 * (x - L) == 2 * (X - inject_Z fl) * E) as Hd
    by (rewrite Hx, HL; ring).
  destruct Hm as [[-> Hc]|[-> Hc]]; [left|right].
  - split; [rewrite HL; reflexivity|]. rewrite Hd.
    setoid_replace E with (1 * E) using relation Qeq at 2 by ring.
    apply Qmult_le_compat_r; [|lra]. destruct Hc as [Hc|[Hc _]]; lra.
  - split; [rewrite HL, inject_Z_plus; change (inject_Z 1) with 1; ring|].
    rewrite Hd. setoid_replace E with (1 * E) using relation Qeq at 1 by ring.
    apply Qmult_le_compat_r; [|lra]. destruct Hc as [Hc|[Hc _]]; lra.
Qed.

Lemma floor_normal : (-1074 < e)%Z -> (2 ^ 52 <= fl)%Z.
Proof.
  intros Hn. assert (e = k - 52)%Z as Hek by lia.
  pose proof unit_pos as P. destruct Hk as [Hk1 _].
  apply (floor_ge X); [apply Hfl|].
  rewrite pow2_inject by lia.
  apply Qmult_le_r with (z := E); [exact P|].
  rewrite <- Hx, HE, <- pow2_add. replace (52 + e)%Z with k by lia.
  exact Hk1.
Qed.

Lemma floor_below : (fl < 2 ^ 53)%Z.
Proof.
  pose proof unit_pos as P. destruct Hk as [_ Hk2].
  apply inject_Zlt. rewrite pow2_inject by lia.
  apply Qle_lt_trans with X; [apply Hfl|].
  apply Qmult_lt_r with (z := E); [exact P|].
  rewrite <- Hx. apply Qlt_le_trans with (2 ^ (k + 1)); [exact Hk2|].
  rewrite HE, <- pow2_add. apply pow2_le. lia.
Qed.

Lemma floor_nonneg : (0 <= fl)%Z.
Proof.
  pose proof unit_pos as P. destruct Hk as [Hk1 _].
  apply (floor_ge X); [apply Hfl|]. change (inject_Z 0) with 0.
  pose proof (pow2_pos k) as Pk.
  destruct (Qlt_le_dec X 0) as [Hc|Hc]; [|exact Hc]. exfalso.
  assert (X * E < 0 * E) as H by (apply Qmult_lt_compat_r; assumption).
  rewrite <- Hx in H. lra.
Qed.

(** Every binary64 number is on one side of the bracket. *)
Lemma binary64_outside (q' : Q) :
  binary64 q' -> q' <= L \/ L + E <= q'.
Proof.
  intros (m' & e' & Hm' & He' & Hq'). pose proof unit_pos as P.
  destruct (Z_le_gt_dec e e') as [Hee|Hee].
  - destruct (binary64_multiple m' e' e Hee) as [j Hj].
    rewrite Hq', Hj, <- HE, HL.
    destruct (Z_le_gt_dec j fl) as [Hjf|Hjf]; [left|right].
    + apply Qmult_le_compat_r; [apply Zle_inject; exact Hjf|lra].
    + setoid_replace (inject_Z fl * E + E) with (inject_Z (fl + 1) * E)
        using relation Qeq by (rewrite inject_Z_plus; change (inject_Z 1) with 1; ring).
      apply Qmult_le_compat_r; [apply Zle_inject; lia|lra].
  - left. rewrite Hq'.
    apply Qle_trans with (2 ^ 52 * 2 ^ e);
      [apply binary64_below; [exact Hm'|lia]|].
    rewrite HL, <- HE. apply Qmult_le_compat_r; [|lra].
    rewrite <- pow2_inject by lia. apply Zle_inject, floor_normal. lia.
Qed.

(** No binary64 number is nearer to the quotient than the rounded
    one. *)
Lemma rounded_nearest (q' : Q) :
  binary64 q' -> Qabs (x - inject_Z m * E) <= Qabs (x - q').
Proof.
  intros Hq'. pose proof unit_pos as P.
  destruct floor_bracket as [B1 B2].
  destruct (binary64_outside q' Hq') as [Ho|Ho];
    destruct rounded_cases as [[-> Hr]|[-> Hr]];
    apply Qabs_case; intros; apply Qabs_case; intros; lra.
Qed.

(** Below [2^1024] the rounded quotient is a binary64 number. *)
Lemma rounded_binary64 :
  inject_Z m * E < 2 ^ 1024 -> binary64 (inject_Z m * E).
Proof.
  intros Hlt. pose proof unit_pos as P.
  pose proof floor_below as Hb. pose proof floor_nonneg as H0.
  assert (0 <= m <= 2 ^ 53)%Z as Hm' by (destruct Hm as [[-> _]|[-> _]]; lia).
  assert (-1074 < e -> 2 ^ 52 <= m)%Z as Hmn.
  { intros Hn. pose proof (floor_normal Hn). destruct Hm as [[-> _]|[-> _]]; lia. }
  assert (forall c : Z, (0 <= c)%Z -> (2 ^ c <= m)%Z -> (c + e < 1024)%Z) as Hexp.
  { intros c Hc Hcm. apply pow2_lt_inv. rewrite pow2_add.
    apply Qle_lt_trans with (inject_Z m * E); [|exact Hlt].
    rewrite <- HE. apply Qmult_le_compat_r; [|lra].
    rewrite <- pow2_inject by lia. apply Zle_inject. exact Hcm. }
  destruct (Z.eq_dec m (2 ^ 53)%Z) as [Heq|Hne].
  - exists (2 ^ 52)%Z, (e + 1)%Z. split; [lia|]. split.
    + pose proof (Hexp 53%Z ltac:(lia) ltac:(lia)). lia.
    + rewrite Heq, HE, !pow2_inject, <- !pow2_add by lia.
      replace (52 + (e + 1))%Z with (53 + e)%Z by lia. reflexivity.
  - exists m, e. split; [lia|]. split.
    + destruct (Z_le_gt_dec e (-1074)) as [Hs|Hs]; [lia|].
      pose proof (Hexp 52%Z ltac:(lia) (Hmn ltac:(lia))). lia.
    + rewrite HE. reflexivity.
Qed.

Lemma binade_bound (c : Z) : 2 ^ c <= x -> (c <= k)%Z.
Proof.
  intros H. destruct Hk as [_ Hk2].
  assert (c < k + 1)%Z; [|lia]. apply pow2_lt_inv. lra.
Qed.

Lemma binade_bound_lt (c : Z) : x < 2 ^ c -> (k < c)%Z.
Proof.
  intros H. destruct Hk as [Hk1 _]. apply pow2_lt_inv. lra.
Qed.

(** The rounded quotient leaves the range exactly from half a unit
    below 2^1024 on. *)
Lemma rounded_overflow :
  2 ^ 1024 <= inject_Z m * E <-> float_overflow <= x.
Proof.
  pose proof unit_pos as P. pose proof floor_below as Hb.
  pose proof floor_nonneg as H0.
  assert (2 ^ 1024 == 2 ^ 970 * 2 ^ 54) as E1024 by exact (pow2_add 970 54).
  assert (2 ^ 1023 == 2 ^ 970 * 2 ^ 53) as E1023 by exact (pow2_add 970 53).
  assert (2 ^ 971 == 2 ^ 970 * 2) as E971 by exact (pow2_add 970 1).
  pose proof (pow2_pos 970) as P970.
  pose proof (pow2_inject 54 ltac:(lia)) as I54.
  pose proof (pow2_inject 53 ltac:(lia)) as I53.
  assert (0 <= m <= 2 ^ 53)%Z as Hm' by (destruct Hm as [[-> _]|[-> _]]; lia).
  assert (float_overflow == (2 ^ 53 - (1 # 2)) * 2 ^ 971) as HT.
  { unfold float_overflow. rewrite E1024, E971, <- I54, <- I53.
    change (inject_Z (2 ^ 54)) with (2 * inject_Z (2 ^ 53)).
    ring. }
  split.
  - (* the rounded value is out of range: the quotient is at least the
       threshold *)
    intros Hov. destruct (Qlt_le_dec x float_overflow) as [Hc|Hc]; [|exact Hc].
    exfalso.
    assert (x < 2 ^ 1024) as Hx1024.
    { unfold float_overflow in Hc. lra. }
    pose proof (binade_bound_lt 1024 Hx1024) as Hk1024.
    assert (e <= 971)%Z as He971 by lia.
    destruct (Z_le_gt_dec e 970) as [Hs|Hs].
    + assert (inject_Z m * E <= 2 ^ 53 * 2 ^ 970) as Hle.
      { apply Qle_trans with (2 ^ 53 * E).
        - apply Qmult_le_compat_r; [|lra]. rewrite <- I53. apply Zle_inject. lia.
        - apply Qmult_le_l; [apply pow2_pos|]. rewrite HE. apply pow2_le. lia. }
      rewrite E1024 in Hov. rewrite <- I53 in Hle. rewrite <- I54 in Hov.
      change (inject_Z (2 ^ 54)) with (2 * inject_Z (2 ^ 53)) in Hov.
      assert (0 < inject_Z (2 ^ 53)) by reflexivity.
      assert (2 ^ 970 * (2 * inject_Z (2 ^ 53)) <= inject_Z (2 ^ 53) * 2 ^ 970)
        as Habs by lra.
      assert (0 < inject_Z (2 ^ 53) * 2 ^ 970)
        by (apply Qmult_lt_0_compat; assumption).
      lra.
    + assert (e = 971)%Z as He' by lia.
      assert (E == 2 ^ 971) as HE' by (rewrite HE, He'; reflexivity).
      assert (X < 2 ^ 53 - (1 # 2)) as HX.
      { apply Qmult_lt_r with (z := E); [exact P|].
        rewrite <- Hx, HE', <- HT. exact Hc. }
      assert (inject_Z m <= 2 ^ 53 - 1) as Hmle.
      { rewrite <- I53. destruct Hfl as [F1 F2].
        assert (inject_Z fl < inject_Z (2 ^ 53)) as Hf by (rewrite I53; lra).
        apply inject_Zlt in Hf.
        change 1 with (inject_Z 1). rewrite <- inject_Z_sub. apply Zle_inject.
        destruct Hm as [[-> _]|[-> Hc']]; [lia|].
        assert (inject_Z (fl + 1) < inject_Z (2 ^ 53)) as Hf'.
        { rewrite inject_Z_plus, I53. change (inject_Z 1) with 1.
          destruct Hc' as [Hc'|[Hc' _]]; lra. }
        apply inject_Zlt in Hf'. lia. }
      assert (inject_Z m * E <= (2 ^ 53 - 1) * E) as Hle
        by (apply Qmult_le_compat_r; [exact Hmle|lra]).
      rewrite HE', E971, <- I53 in Hle. rewrite E1024, HE', E971, <- I54 in Hov.
      change (inject_Z (2 ^ 54)) with (2 * inject_Z (2 ^ 53)) in Hov.
      lra.
  - (* the quotient is at least the threshold: the rounded value is out
       of range *)
    intros Hge.
    assert (2 ^ 1023 <= x) as Hx1023.
    { apply Qle_trans with float_overflow; [|exact Hge].
      unfold float_overflow. rewrite E1024, E1023, <- I54, <- I53.
      change (inject_Z (2 ^ 54)) with (2 * inject_Z (2 ^ 53)).
      assert (1 <= inject_Z (2 ^ 53)) by discriminate.
      assert (2 ^ 970 * 1 <= 2 ^ 970 * inject_Z (2 ^ 53))
        by (apply Qmult_le_l; assumption).
      lra. }
    pose proof (binade_bound 1023 Hx1023) as Hk1023.
    assert (971 <= e)%Z as He971 by lia.
    assert (2 ^ 52 <= fl)%Z as Hnorm by (apply floor_normal; lia).
    destruct (Z_le_gt_dec 972 e) as [Hs|Hs].
    + apply Qle_trans with (2 ^ 52 * E).
      * rewrite HE, <- pow2_add. apply pow2_le. lia.
      * apply Qmult_le_compat_r; [|lra].
        rewrite <- pow2_inject by lia. apply Zle_inject.
        destruct Hm as [[-> _]|[-> _]]; lia.
    + assert (e = 971)%Z as He' by lia.
      assert (E == 2 ^ 971) as HE' by (rewrite HE, He'; reflexivity).
      assert (2 ^ 53 - (1 # 2) <= X) as HX.
      { apply Qmult_le_r with (z := E); [exact P|].
        rewrite <- Hx, HE', <- HT. exact Hge. }
      destruct Hfl as [F1 F2].
      assert (inject_Z (2 ^ 53 - 2) < inject_Z fl) as Hf.
      { rewrite inject_Z_sub, I53. change (inject_Z 2) with 2. lra. }
      apply inject_Zlt in Hf.
      assert (fl = 2 ^ 53 - 1)%Z as Hfl' by lia.
      assert (m = 2 ^ 53)%Z as Hm53.
      { destruct Hm as [[_ Hc]|[-> _]]; [exfalso|lia].
        assert (inject_Z fl == 2 ^ 53 - 1) as Hfq.
        { rewrite Hfl', inject_Z_sub, I53. reflexivity. }
        destruct Hc as [Hc|[_ Hc]]; [lra|].
        rewrite Hfl' in Hc. discriminate Hc. }
      rewrite Hm53, I53, HE', <- pow2_add. apply Qle_refl.
Qed.

End Quotient.

Lemma binary64_proper (q q' : Q) : q == q' -> binary64 q -> binary64 q'.
Proof.
  intros Hq (m & e & Hm & He & H). exists m, e. rewrite <- Hq. auto.
Qed.

Lemma binary64_opp (q : Q) : binary64 q -> binary64 (- q).
Proof.
  intros (m & e & Hm & He & H). exists (- m)%Z, e.
  split; [lia|]. split; [exact He|]. rewrite H, inject_Z_opp. ring.
Qed.

Lemma binary64_0 : binary64 0.
Proof. exists 0%Z, 0%Z. repeat split; try lia. Qed.

Lemma nearest_binary64_proper (x x' q q' : Q) :
  x == x' -> q == q' -> nearest_binary64 x q -> nearest_binary64 x' q'.
Proof.
  intros Hx Hq [Hb Hn]. split; [exact (binary64_proper _ _ Hq Hb)|].
  intros p Hp. rewrite <- Hx, <- Hq. apply Hn, Hp.
Qed.

Lemma nearest_binary64_opp (x q : Q) :
  nearest_binary64 x q -> nearest_binary64 (- x) (- q).
Proof.
  intros [Hb Hn]. split; [exact (binary64_opp _ Hb)|].
  intros p Hp.
  setoid_replace (- x - - q) with (- (x - q)) using relation Qeq by ring.
  setoid_replace (- x - p) with (- (x - - p)) using relation Qeq by ring.
  rewrite !Qabs_opp. apply Hn, binary64_opp, Hp.
Qed.

Lemma float_overflow_pos : 0 < float_overflow.
Proof.
  unfold float_overflow. pose proof (pow2_lt 970 1024 ltac:(lia)). lra.
Qed.

(** The quotient of two positive integers. *)
Lemma rounded_quotient (a n : Z) :
  (0 < a)%Z -> (0 < n)%Z ->
  let e := ulp_exponent a n in
  let N := (2 ^ Z.max (- e) 0)%Z in
  let P := (2 ^ Z.max e 0)%Z in
  let m := round_half_even (a * N) (n * P) in
  let x := inject_Z a / inject_Z n in
  inject_Z (m * P) / inject_Z N == inject_Z m * 2 ^ e /\
  ((2 ^ 1024 * N <= m * P)%Z <-> float_overflow <= x) /\
  (x < float_overflow -> nearest_binary64 x (inject_Z m * 2 ^ e)).
Proof.
  intros Ha Hn e N P m x.
  destruct (grid_facts a n Ha Hn) as (X & HX & Hfl & Hm & Hk).
  fold e N P in Hfl, Hm. fold m in Hm. fold e in HX, Hk.
  pose proof (inject_Z_pos _ Hn) as Hn'.
  assert (0 < N)%Z as HN by (apply Z.pow_pos_nonneg; lia).
  pose proof (inject_Z_pos _ HN) as HN'.
  pose proof (pow2_split e) as Hs. fold N P in Hs.
  pose proof (pow2_pos e) as HE.
  assert (x == X * 2 ^ e) as Hx.
  { unfold x. rewrite <- HX. field. lra. }
  assert (inject_Z (m * P) / inject_Z N == inject_Z m * 2 ^ e) as Hval.
  { rewrite inject_Z_mult, <- Hs. field. lra. }
  pose proof (rounded_overflow X (2 ^ e) x (a * N / (n * P)) m e
                (binade a n) (Qeq_refl _) Hx eq_refl Hfl Hm) as Hov.
  rewrite <- Hx in Hk. specialize (Hov Hk).
  assert ((2 ^ 1024 * N <= m * P)%Z <-> 2 ^ 1024 <= inject_Z m * 2 ^ e) as Ht.
  { rewrite Zle_Qle, !inject_Z_mult, <- Hs, pow2_inject by lia.
    split; intros H.
    - apply Qmult_le_r with (z := inject_Z N); [exact HN'|]. lra.
    - apply (Qmult_le_r _ _ (inject_Z N)) in H; [|exact HN']. lra. }
  split; [exact Hval|]. split; [rewrite Ht; exact Hov|].
  intros Hlt. split.
  - apply (rounded_binary64 X (2 ^ e) x (a * N / (n * P)) m e (binade a n)
             (Qeq_refl _) Hx eq_refl Hfl Hm Hk).
    destruct (Qlt_le_dec (inject_Z m * 2 ^ e) (2 ^ 1024)) as [Hc|Hc];
      [exact Hc|].
    apply Hov in Hc. lra.
  - intros q' Hq'.
    apply (rounded_nearest X (2 ^ e) x (inject_Z (a * N / (n * P)) * 2 ^ e)
             (a * N / (n * P)) m e (binade a n)
             (Qeq_refl _) Hx (Qeq_refl _) eq_refl Hfl Hm Hk q' Hq').
Qed.

(** [nearest_float]: below the threshold a nearest binary64 number of
    the quotient, and none from the threshold on. *)
Lemma nearest_float_spec (a n : Z) :
  (0 < n)%Z ->
  let x := inject_Z a / inject_Z n in
  (Qabs x < float_overflow ->
   exists q, nearest_float a n = Some q /\ nearest_binary64 x q) /\
  (float_overflow <= Qabs x -> nearest_float a n = None).
Proof.
  intros Hn x. pose proof (inject_Z_pos _ Hn) as Hn'.
  pose proof float_overflow_pos as HT.
  unfold nearest_float. destruct (Z.eqb_spec a 0) as [->|Ha].
  - assert (x == 0) as Hx by (unfold x; field; lra).
    split.
    + intros _. exists 0. split; [reflexivity|].
      apply (nearest_binary64_proper 0 x 0 0);
        [symmetry; exact Hx|reflexivity|].
      split; [exact binary64_0|]. intros q' _.
      setoid_replace (0 - 0) with 0 using relation Qeq by ring.
      apply Qabs_nonneg.
    + intros H. rewrite Hx in H. change (Qabs 0) with 0 in H. lra.
  - assert (0 < Z.abs a)%Z as Ha' by lia.
    replace (Z.abs n) with n by lia. replace (Z.sgn n) with 1%Z by lia.
    pose proof (rounded_quotient (Z.abs a) n Ha' Hn) as Hq.
    cbv zeta in Hq. cbv zeta.
    set (e := ulp_exponent (Z.abs a) n) in *.
    set (N := (2 ^ Z.max (- e) 0)%Z) in *.
    set (P := (2 ^ Z.max e 0)%Z) in *.
    set (m := round_half_even (Z.abs a * N) (n * P)) in *.
    destruct Hq as (Hval & Hov & Hnear).
    assert (0 < N)%Z as HN by (apply Z.pow_pos_nonneg; lia).
    pose proof (inject_Z_pos _ HN) as HN'.
    assert (0 < inject_Z (Z.abs a) / inject_Z n) as Hxp.
    { apply Qlt_shift_div_l; [exact Hn'|].
      setoid_replace (0 * inject_Z n) with 0 using relation Qeq by ring.
      apply inject_Z_pos, Ha'. }
    assert (x == inject_Z (Z.sgn a) * (inject_Z (Z.abs a) / inject_Z n)) as Hx.
    { unfold x. rewrite <- (Z.abs_sgn a) at 1. rewrite inject_Z_mult.
      field. lra. }
    assert (Qabs x == inject_Z (Z.abs a) / inject_Z n) as Hax.
    { assert (Qabs (inject_Z (Z.sgn a)) == 1) as Hs
        by (destruct (Z.sgn_spec a) as [[_ ->]|[[? _]|[_ ->]]];
            [reflexivity|lia|reflexivity]).
      rewrite Hx, Qabs_Qmult, Hs, (Qabs_pos (_ / _)) by lra. ring. }
    assert (Qred (Z.sgn a * 1 * (m * P) # Z.to_pos N)
            == inject_Z (Z.sgn a) * (inject_Z m * 2 ^ e)) as Hres.
    { rewrite Qred_correct, Qmake_Qdiv, Z2Pos.id by exact HN.
      rewrite <- Hval, !inject_Z_mult. change (inject_Z 1) with 1.
      field. lra. }
    rewrite Hax. split.
    + intros Hlt. destruct (Z.leb_spec (2 ^ 1024 * N) (m * P)) as [H|H].
      * apply Hov in H. lra.
      * eexists. split; [reflexivity|].
        specialize (Hnear Hlt).
        eapply nearest_binary64_proper; [symmetry; exact Hx|symmetry; exact Hres|].
        destruct (Z.sgn_spec a) as [[_ ->]|[[? _]|[_ ->]]]; [|lia|].
        -- eapply nearest_binary64_proper; [| |exact Hnear];
             change (inject_Z 1) with 1; ring.
        -- eapply nearest_binary64_proper;
             [| |exact (nearest_binary64_opp _ _ Hnear)];
             rewrite inject_Z_opp; change (inject_Z 1) with 1; ring.
    + intros Hge. apply Hov in Hge.
      destruct (Z.leb_spec (2 ^ 1024 * N) (m * P)) as [H|H]; [reflexivity|lia].
Qed.

(** The nearest binary64 number lies between any two binary64 numbers
    that enclose the quotient, and is the quotient when that is one. *)
Lemma nearest_binary64_between (x q lo hi : Q) :
  nearest_binary64 x q -> binary64 lo -> binary64 hi ->
  lo <= x -> x <= hi -> lo <= q /\ q <= hi.
Proof.
  intros [_ Hn] Hlo Hhi H1 H2.
  pose proof (Hn lo Hlo) as Hl. pose proof (Hn hi Hhi) as Hh.
  split.
  - destruct (Qlt_le_dec q lo) as [Hc|Hc]; [exfalso|exact Hc].
    revert Hl. apply Qabs_case; intros ?; apply Qabs_case; intros; lra.
  - destruct (Qlt_le_dec hi q) as [Hc|Hc]; [exfalso|exact Hc].
    revert Hh. apply Qabs_case; intros ?; apply Qabs_case; intros; lra.
Qed.

Lemma nearest_binary64_exact (x q : Q) :
  nearest_binary64 x q -> binary64 x -> q == x.
Proof.
  intros Hn Hx.
  destruct (nearest_binary64_between x q x x Hn Hx Hx
              (Qle_refl _) (Qle_refl _)) as [H1 H2].
  lra.
Qed.

End Binary64.

(** ** The summary aggregator *)

Lemma collect_scores_present (results : gmap string pydict) (s0 : summary) :
  let acc := collect_score "accessibility" "score" results
               (collect_score "seo" "score" results
                  (collect_score "performance" "lighthouse_score" results
                     ([], s0))) in
  acc.1 = present_scores results /\ overall_score acc.2 = overall_score s0.
Proof.
  unfold collect_score, present_scores, score_of; cbn [omap list_omap fst snd].
  destruct (results !! "performance") as [perf|]; cbn [mbind option_bind];
    [destruct (dict_get "lighthouse_score" perf)|];
    (destruct (results !! "seo") as [seo|]; cbn [mbind option_bind];
      [destruct (dict_get "score" seo)|]);
    (destruct (results !! "accessibility") as [acc|]; cbn [mbind option_bind];
      [destruct (dict_get "score" acc)|]);
    cbn; auto.
Qed.

(** ** The summary aggregator on [int] scores *)

Lemma int_of_number (v : value) (z : Z) :
  int_of v = Some z -> number_of v = Some (Int z).
Proof. destruct v; try discriminate; intros [= <-]; reflexivity. Qed.

(** The sum of [int] scores is the [int] sum. *)
Lemma py_sum_from_ints (xs : list value) (zs : list Z) :
  mapM int_of xs = Some zs ->
  forall acc, py_sum_from (Int acc) xs = Ok (Int (acc + Zsum zs)).
Proof.
  intros H. apply mapM_Some in H.
  induction H as [|x z xs zs Hx _ IH]; intros acc.
  - cbn. by rewrite Z.add_0_r.
  - cbn [py_sum_from]. rewrite (int_of_number _ _ Hx).
    cbn [py_add mbind outcome_bind]. rewrite IH.
    change (Zsum (z :: zs)) with (z + Zsum zs). by rewrite Z.add_assoc.
Qed.

Lemma Qsum_inject (zs : list Z) :
  (Qsum (inject_Z <$> zs) == inject_Z (Zsum zs))%Q.
Proof.
  induction zs as [|z zs IH]; [reflexivity|].
  change (Qsum (inject_Z <$> z :: zs))
    with (inject_Z z + Qsum (inject_Z <$> zs))%Q.
  change (Zsum (z :: zs)) with (z + Zsum zs).
  by rewrite IH, inject_Z_plus.
Qed.

Lemma mean_quotient (zs : list Z) :
  zs <> [] ->
  (arithmetic_mean (inject_Z <$> zs)
   == inject_Z (Zsum zs) / inject_Z (Z.of_nat (length zs)))%Q.
Proof.
  intros Hne. destruct zs as [|z zs]; [done|].
  unfold arithmetic_mean. rewrite fmap_cons, <- fmap_cons.
  by rewrite Qsum_inject, length_fmap.
Qed.

(** The [if scores:] block on [int] scores. *)
Lemma averaged_ints (scores : list value) (zs : list Z) (s1 : summary) :
  mapM int_of scores = Some zs -> zs <> [] ->
  averaged scores s1 =
    match nearest_float (Zsum zs) (Z.of_nat (length zs)) with
    | Some q => Ok (set_overall_score (VFloat q) s1)
    | None =>
        Raise (Exc "OverflowError"
                 "integer division result too large for a float")
    end.
Proof.
  intros Hzs Hne. pose proof (length_mapM _ _ _ Hzs) as Hlen.
  destruct scores as [|v scores].
  { destruct zs; [done|discriminate]. }
  unfold averaged, py_sum. rewrite (py_sum_from_ints _ _ Hzs).
  cbn [mbind outcome_bind py_truediv]. unfold int_true_divide.
  rewrite Z.add_0_l, Hlen.
  destruct (Z.eqb_spec (Z.of_nat (length zs)) 0) as [H0|_].
  { destruct zs; [done|]. cbn [length] in H0. lia. }
  by destruct (nearest_float _ _).
Qed.

Lemma averaged_rounded (scores : list value) (zs : list Z) :
  mapM int_of scores = Some zs -> zs <> [] ->
  let mean := arithmetic_mean (inject_Z <$> zs) in
  ((Qabs mean < float_overflow)%Q ->
   exists q, nearest_binary64 mean q /\
     forall s1, averaged scores s1 = Ok (set_overall_score (VFloat q) s1)) /\
  ((float_overflow <= Qabs mean)%Q ->
   forall s1, averaged scores s1
              = Raise (Exc "OverflowError"
                         "integer division result too large for a float")).
Proof.
  intros Hzs Hne mean.
  assert (0 < Z.of_nat (length zs)) as Hn.
  { destruct zs; [done|]. cbn [length]. lia. }
  destruct (nearest_float_spec (Zsum zs) _ Hn) as [Hin Hout].
  pose proof (mean_quotient zs Hne) as Hmean. fold mean in Hmean.
  rewrite <- Hmean in Hin, Hout.
  split.
  - intros Hlt. destruct (Hin Hlt) as (q & Hq & Hnear).
    exists q. split.
    + eapply nearest_binary64_proper; [symmetry; exact Hmean| |exact Hnear].
      reflexivity.
    + intros s1. by rewrite (averaged_ints _ _ _ Hzs Hne), Hq.
  - intros Hge s1. by rewrite (averaged_ints _ _ _ Hzs Hne), (Hout Hge).
Qed.

(** The last block of [_generate_summary] leaves the score alone. *)
Lemma generate_summary_inv (results : gmap string pydict) (s : summary) :
  _generate_summary results = Ok s ->
  exists s1 s2,
    overall_score s1 = VInt 0 /\
    averaged (present_scores results) s1 = Ok s2 /\
    overall_score s = overall_score s2.
Proof.
  unfold _generate_summary.
  pose proof (collect_scores_present results
                (Summary (VInt 0) ∅ (Issues 0 0 0 0) [])) as Hc.
  cbv zeta in Hc.
  destruct (collect_score "accessibility" "score" results _) as [scores s1].
  cbn [fst snd overall_score] in Hc. destruct Hc as [-> Hs1].
  fold (averaged (present_scores results) s1).
  destruct (averaged (present_scores results) s1) as [s2|e] eqn:Hav;
    cbn [mbind outcome_bind]; [|discriminate].
  intros H. exists s1, s2. split; [exact Hs1|]. split; [exact Hav|].
  clear Hav.
  destruct (results !! "performance") as [perf|]; [|congruence].
  destruct (dict_get "metrics" perf) as [pm|]; [|congruence].
  destruct (py_contains "first_contentful_paint" pm) as [[]|];
    cbn [mbind outcome_bind] in H; try congruence.
  destruct (py_getitem pm "first_contentful_paint") as [fcp|];
    cbn [mbind outcome_bind] in H; try congruence.
  destruct (py_gt fcp 2000) as [[]|];
    cbn [mbind outcome_bind] in H; try congruence.
  inversion H; reflexivity.
Qed.

Lemma generate_summary_returns (results : gmap string pydict) :
  (forall s1, exists s2, averaged (present_scores results) s1 = Ok s2) ->
  metrics_well_typed results ->
  exists s, _generate_summary results = Ok s.
Proof.
  intros Hav Hm. unfold _generate_summary.
  pose proof (collect_scores_present results
                (Summary (VInt 0) ∅ (Issues 0 0 0 0) [])) as Hc.
  cbv zeta in Hc.
  destruct (collect_score "accessibility" "score" results _) as [scores s1].
  cbn [fst snd] in Hc. destruct Hc as [-> _].
  fold (averaged (present_scores results) s1).
  destruct (Hav s1) as [s2 ->].
  cbn [mbind outcome_bind].
  destruct (results !! "performance") as [perf|] eqn:Hp; [|eauto].
  destruct (dict_get "metrics" perf) as [pm|] eqn:Hpm; [|eauto].
  destruct (Hm _ _ Hp Hpm) as (d & -> & Hfcp).
  cbn [py_contains mbind outcome_bind]. unfold dict_has.
  cbn [py_getitem].
  destruct (dict_get "first_contentful_paint" d) as [v|]; [|eauto].
  cbn [mbind outcome_bind]. unfold py_gt.
  destruct (Hfcp v eq_refl) as [q ->]. cbn [mbind outcome_bind].
  destruct (Qlt_le_dec _ _); eauto.
Qed.

(** What the averaging raises, the aggregator raises. *)
Lemma generate_summary_raises (results : gmap string pydict) (e : exn) :
  (forall s1, averaged (present_scores results) s1 = Raise e) ->
  _generate_summary results = Raise e.
Proof.
  intros Hav. unfold _generate_summary.
  pose proof (collect_scores_present results
                (Summary (VInt 0) ∅ (Issues 0 0 0 0) [])) as Hc.
  cbv zeta in Hc.
  destruct (collect_score "accessibility" "score" results _) as [scores s1].
  cbn [fst snd] in Hc. destruct Hc as [-> _].
  fold (averaged (present_scores results) s1).
  by rewrite Hav.
Qed.

(** The score of a returned summary, for [int] scores. *)
Lemma summary_score_rounded (results : gmap string pydict) (zs : list Z)
    (s : summary) :
  mapM int_of (present_scores results) = Some zs ->
  _generate_summary results = Ok s ->
  exists q, as_number (overall_score s) = Some q /\
            nearest_binary64 (arithmetic_mean (inject_Z <$> zs)) q /\
            (zs = [] -> overall_score s = VInt 0).
Proof.
  intros Hzs Hs.
  destruct (generate_summary_inv _ _ Hs) as (s1 & s2 & Hs1 & Hav & ->).
  destruct zs as [|z zs].
  - pose proof (length_mapM _ _ _ Hzs) as Hlen.
    destruct (present_scores results); [|discriminate].
    injection Hav as <-. rewrite Hs1. exists 0%Q.
    split; [reflexivity|]. split; [|done].
    split; [exact binary64_0|]. intros q' _. apply Qabs_nonneg.
  - destruct (averaged_rounded _ _ Hzs ltac:(done)) as [Hin Hout].
    destruct (Qlt_le_dec
                (Qabs (arithmetic_mean (inject_Z <$> z :: zs)))
                float_overflow) as [Hlt|Hge].
    + destruct (Hin Hlt) as (q & Hnear & Hq). rewrite Hq in Hav.
      injection Hav as <-. exists q.
      split; [reflexivity|]. split; [exact Hnear|discriminate].
    + rewrite (Hout Hge) in Hav. discriminate.
Qed.

Lemma generate_summary_no_score (results : gmap string pydict) :
  absent_or_error results "performance" ->
  absent_or_error results "seo" ->
  absent_or_error results "accessibility" ->
  _generate_summary results = Ok (Summary (VInt 0) ∅ (Issues 0 0 0 0) []).
Proof.
  intros [Hp|[mp Hp]] [Hs|[ms Hs]] [Ha|[ma Ha]];
    unfold _generate_summary, collect_score; rewrite Hp, Hs, Ha;
    reflexivity.
Qed.

(** C1, as the code has it.  For [int] scores the [overall_score] of a
    returned summary is the binary64 number nearest to the arithmetic
    mean of exactly the scores that are present among the performance
    entry's [lighthouse_score] and the seo and accessibility entries'
    [score]: the mean itself whenever that is a binary64 number, and the
    integer 0 when no score is present.  A summary is returned when the
    mean is below the overflow threshold and the input of the
    recommendation rule is well typed; from the threshold on the
    aggregator raises [OverflowError].  When each of the three entries is
    missing or an error marker, the score is 0. *)
Theorem overall_score_rounded_mean (results : gmap string pydict) :
  (forall zs, mapM int_of (present_scores results) = Some zs ->
     let mean := arithmetic_mean (inject_Z <$> zs) in
     (forall s, _generate_summary results = Ok s ->
        exists q, as_number (overall_score s) = Some q /\
                  nearest_binary64 mean q /\
                  (binary64 mean -> (q == mean)%Q) /\
                  (zs = [] -> overall_score s = VInt 0)) /\
     ((Qabs mean < float_overflow)%Q -> metrics_well_typed results ->
      exists s, _generate_summary results = Ok s) /\
     ((float_overflow <= Qabs mean)%Q ->
      _generate_summary results
      = Raise (Exc "OverflowError"
                 "integer division result too large for a float"))) /\
  (absent_or_error results "performance" ->
   absent_or_error results "seo" ->
   absent_or_error results "accessibility" ->
   exists s, _generate_summary results = Ok s /\ overall_score s = VInt 0).
Proof.
  split.
  - intros zs Hzs mean. split; [|split].
    + intros s Hs.
      destruct (summary_score_rounded _ _ _ Hzs Hs) as (q & Hq & Hnear & H0).
      exists q. split; [exact Hq|]. split; [exact Hnear|].
      split; [|exact H0]. intros Hb. by apply nearest_binary64_exact.
    + intros Hlt Hm. apply generate_summary_returns; [|exact Hm].
      intros s1. destruct zs as [|z zs].
      * pose proof (length_mapM _ _ _ Hzs) as Hlen.
        destruct (present_scores results); [|discriminate]. by exists s1.
      * destruct (averaged_rounded _ _ Hzs ltac:(done)) as [Hin _].
        destruct (Hin Hlt) as (q & _ & Hq). rewrite Hq. eauto.
    + intros Hge. apply generate_summary_raises. intros s1.
      destruct zs as [|z zs].
      * exfalso. pose proof float_overflow_pos as HT.
        change (Qabs mean) with 0%Q in Hge. lra.
      * destruct (averaged_rounded _ _ Hzs ltac:(done)) as [_ Hout].
        by apply Hout.
  - intros Hp Hs Ha. eexists. split.
    + apply generate_summary_no_score; assumption.
    + reflexivity.
Qed.

(** C1, as the claim has it, fails on the code: the mean of 85, 78 and
    72 is not a binary64 number, and the score stored is the binary64
    number beside it; and for a score of [10^400] the division raises
    [OverflowError], so that no summary is returned at all. *)
Lemma overall_score_not_the_mean :
  (exists s q,
     _generate_summary placeholder_scores = Ok s /\
     mapM as_number (present_scores placeholder_scores)
     = Some [85%Q; 78%Q; 72%Q] /\
     overall_score s = VFloat q /\
     ~ (q == arithmetic_mean [85; 78; 72])%Q) /\
  (mapM as_number (present_scores huge_score)
   = Some [inject_Z (10 ^ 400)] /\
   _generate_summary huge_score
   = Raise (Exc "OverflowError"
              "integer division result too large for a float")).
Proof.
  split.
  - exists (Summary (VFloat (5512218293917013 # 70368744177664))
              {[ "performance" := VInt 85; "seo" := VInt 78;
                 "accessibility" := VInt 72 ]}
              (Issues 0 0 0 0) []),
           (5512218293917013 # 70368744177664)%Q.
    split; [by vm_compute|]. split; [by vm_compute|]. split; [reflexivity|].
    by vm_compute.
  - split; by vm_compute.
Qed.

(** ** One run of the monad on a world that holds the record *)

Lemma world_present (w : world) (task_id : string) (t : task) :
  analysis_tasks w !! task_id = Some t ->
  w = World (<[task_id := t]> (analysis_tasks w)) (disk w).
Proof. intros H. destruct w as [ts d]. cbn in *. by rewrite insert_id. Qed.

Lemma task_in_present (task_id : string) (t : task)
    (ts : gmap string task) (d : gmap string file) :
  task_in task_id (World (<[task_id := t]> ts) d)
  = (Ok true, World (<[task_id := t]> ts) d, []).
Proof. unfold task_in. cbn. by rewrite lookup_insert_eq. Qed.

Lemma task_of_present (task_id : string) (t : task)
    (ts : gmap string task) (d : gmap string file) :
  task_of task_id (World (<[task_id := t]> ts) d)
  = (Ok t, World (<[task_id := t]> ts) d, []).
Proof. unfold task_of. cbn. by rewrite lookup_insert_eq. Qed.

Lemma task_update_present (task_id : string) (f : task -> task) (t : task)
    (ts : gmap string task) (d : gmap string file) :
  task_update task_id f (World (<[task_id := t]> ts) d)
  = (Ok tt, World (<[task_id := f t]> ts) d, [Stored task_id (f t)]).
Proof.
  unfold task_update. cbn. by rewrite lookup_insert_eq, insert_insert_eq.
Qed.

Lemma bind_run {A B : Type} (m : M A) (f : A -> M B) (w : world) :
  (m ≫= f) w =
  match m w with
  | (Ok a, w1, ev1) =>
      match f a w1 with
      | (r, w2, ev2) => (r, w2, ev1 ++ ev2)
      end
  | (Raise e, w1, ev1) => (Raise e, w1, ev1)
  end.
Proof. reflexivity. Qed.

Lemma try_except_run {A : Type} (body : M A) (handler : exn -> M A)
    (w : world) :
  try_except body handler w =
  match body w with
  | (Ok a, w1, ev1) => (Ok a, w1, ev1)
  | (Raise e, w1, ev1) =>
      match handler e w1 with
      | (r, w2, ev2) => (r, w2, ev1 ++ ev2)
      end
  end.
Proof. reflexivity. Qed.

(** Rewrites one run of the monad step by step. *)
Ltac run_step :=
  first
    [ rewrite bind_run
    | rewrite try_except_run
    | rewrite task_in_present
    | rewrite task_of_present
    | rewrite task_update_present
    | progress cbv beta iota ].

Ltac run_steps := repeat run_step.

(** ** The module dispatcher, one name at a time *)

Section Dispatcher.

Variable self : analyzers.

Lemma module_call_recognized (t : task) (m : string) :
  is_Some (module_call self t m) <-> m ∈ recognized.
Proof.
  unfold module_call, recognized.
  repeat match goal with
         | |- context [String.eqb m ?s] =>
             destruct (String.eqb_spec m s) as [->|?];
             [split; intros _; [set_solver|eexists; reflexivity]|]
         end.
  split; [intros [? ?]; discriminate|].
  rewrite !elem_of_union, !elem_of_singleton. tauto.
Qed.

Lemma dispatched_status (t : task) (m : string) :
  t_status (dispatched self t m) = t_status t.
Proof. unfold dispatched. by destruct (module_call self t m). Qed.

Lemma module_call_dispatched (t : task) (m m' : string) :
  module_call self (dispatched self t m) m' = module_call self t m'.
Proof. unfold dispatched. by destruct (module_call self t m). Qed.

Lemma dispatch_run (task_id m : string) (t : task)
    (ts : gmap string task) (d : gmap string file) :
  exists ev,
    dispatch self task_id m (World (<[task_id := t]> ts) d)
    = (Ok tt, World (<[task_id := dispatched self t m]> ts) d, ev)
    /\ Forall (keeps_status task_id (t_status t)) ev.
Proof.
  unfold dispatch, dispatched, module_call.
  destruct (String.eqb m "performance");
    [|destruct (String.eqb m "seo");
      [|destruct (String.eqb m "accessibility");
        [|destruct (String.eqb m "technology");
          [|destruct (String.eqb m "carbon")]]]].
  all: run_steps; unfold lift, logger, mret, M_ret; run_steps.
  all: try match goal with
       | |- context [match ?o with Ok _ => _ | Raise _ => _ end] =>
           match o with
           | context [self] => destruct o
           end
       end.
  all: run_steps; unfold lift, logger, mret, M_ret; run_steps.
  all: cbn [entry_of].
  all: eexists; split; [reflexivity|]; repeat constructor.
Qed.

Lemma for_each_dispatch_run (task_id : string) (ms : list string) :
  forall (t : task) (ts : gmap string task) (d : gmap string file),
  exists ev,
    for_each ms (dispatch self task_id) (World (<[task_id := t]> ts) d)
    = (Ok tt, World (<[task_id := foldl (dispatched self) t ms]> ts) d, ev)
    /\ Forall (keeps_status task_id (t_status t)) ev.
Proof.
  induction ms as [|m ms IH]; intros t ts d; cbn [for_each foldl].
  - exists []. split; [reflexivity|constructor].
  - destruct (dispatch_run task_id m t ts d) as (ev1 & Hd & Hev1).
    destruct (IH (dispatched self t m) ts d) as (ev2 & Hf & Hev2).
    rewrite dispatched_status in Hev2.
    exists (ev1 ++ ev2). split.
    + rewrite bind_run, Hd, Hf. reflexivity.
    + apply Forall_app; auto.
Qed.

(** What the loop leaves under each name. *)
Lemma dispatched_results (ms : list string) :
  forall (t : task) (m : string),
    t_results (foldl (dispatched self) t ms) !! m =
    match module_call self t m with
    | Some o =>
        if bool_decide (m ∈ ms) then Some (entry_of o)
        else t_results t !! m
    | None => t_results t !! m
    end.
Proof.
  induction ms as [|x ms IH]; intros t m; cbn [foldl].
  - destruct (module_call self t m); [|reflexivity].
    rewrite bool_decide_eq_false_2; [reflexivity|apply not_elem_of_nil].
  - rewrite IH, module_call_dispatched.
    destruct (module_call self t m) as [o|] eqn:Hm.
    + destruct (decide (m ∈ ms)) as [Hin|Hin].
      * rewrite !bool_decide_eq_true_2; [reflexivity| |assumption].
        apply elem_of_cons; by right.
      * rewrite (bool_decide_eq_false_2 _ Hin).
        destruct (decide (x = m)) as [->|Hne].
        -- rewrite bool_decide_eq_true_2 by (apply elem_of_cons; by left).
           unfold dispatched. rewrite Hm. cbn. apply lookup_insert_eq.
        -- rewrite bool_decide_eq_false_2
             by (intros [?|?]%elem_of_cons; congruence).
           unfold dispatched. destruct (module_call self t x); [|reflexivity].
           cbn. by rewrite lookup_insert_ne.
    + unfold dispatched. destruct (module_call self t x) eqn:Hx; [|reflexivity].
      cbn. rewrite lookup_insert_ne; [reflexivity|congruence].
Qed.

Lemma foldl_dispatched_frame (ms : list string) (t : task) :
  let t1 := foldl (dispatched self) t ms in
  t_status t1 = t_status t /\ t_modules t1 = t_modules t /\
  t_url t1 = t_url t /\ t_summary t1 = t_summary t /\
  t_completed_at t1 = t_completed_at t /\ t_error t1 = t_error t.
Proof.
  revert t. induction ms as [|m ms IH]; intros t; cbn [foldl]; [done|].
  destruct (IH (dispatched self t m)) as (-> & -> & -> & -> & -> & ->).
  unfold dispatched. by destruct (module_call self t m).
Qed.

End Dispatcher.

(** ** One whole run *)

Section Run.

Variable self : analyzers.
Variable fs_write : string -> write_outcome.
Variable clock : string.

Lemma save_results_run (task_id : string) (tf : task)
    (ts : gmap string task) (d : gmap string file) :
  _save_results fs_write task_id tf (World ts d)
  = (Ok tt, World ts (saved_disk fs_write task_id tf d), save_events fs_write task_id).
Proof.
  unfold _save_results, write_json, saved_disk, save_events.
  rewrite try_except_run. cbn [analysis_tasks disk].
  destruct (fs_write (filename_of task_id)); reflexivity.
Qed.

(** The run of [run_analysis] on a world that holds the record [t]. *)
Lemma run_analysis_present (task_id : string) (t : task)
    (ts : gmap string task) (d : gmap string file) :
  exists loop_ev,
    Forall (keeps_status task_id Running) loop_ev /\
    run_analysis self fs_write clock task_id
      (World (<[task_id := t]> ts) d) =
    let t1 := after_modules self t in
    let head_ev :=
      [ Stored task_id (set_status Running t);
        Logged INFO
          ("Starting analysis for task " +:+ task_id +:+ " ("
           +:+ t_url t +:+ ")") ] in
    match _generate_summary (t_results t1) with
    | Ok s =>
        (Ok tt,
         World (<[task_id := finished clock t1 s]> ts)
               (saved_disk fs_write task_id (finished clock t1 s) d),
         head_ev ++ loop_ev ++ run_events_ok self fs_write clock task_id t s)
    | Raise e =>
        (Ok tt, World (<[task_id := failed t1 e]> ts) d,
         head_ev ++ loop_ev ++ run_events_failed self task_id t e)
    end.
Proof.
  destruct (for_each_dispatch_run self task_id (t_modules t)
              (set_status Running t) ts d) as (loop_ev & Hloop & Hev).
  exists loop_ev. split; [exact Hev|].
  unfold run_analysis. run_steps. cbn [negb]. run_steps.
  unfold logger at 1. run_steps.
  change (t_modules (set_status Running t)) with (t_modules t).
  rewrite Hloop. fold (after_modules self t). run_steps.
  unfold lift.
  destruct (_generate_summary (t_results (after_modules self t))) as [s|e].
  - run_steps. rewrite save_results_run. unfold logger. run_steps.
    reflexivity.
  - run_steps. unfold logger. run_steps.
    cbn [app]. rewrite ?app_nil_r, <- ?app_assoc. reflexivity.
Qed.

(** The same run, read off at its end: the result, the record, the
    disk, and the other records. *)
Lemma run_analysis_final (task_id : string) (w : world) (t : task) :
  analysis_tasks w !! task_id = Some t ->
  let r := run_analysis self fs_write clock task_id w in
  let t1 := after_modules self t in
  r.1.1 = Ok tt /\
  (forall other, other <> task_id ->
     analysis_tasks r.1.2 !! other = analysis_tasks w !! other) /\
  match _generate_summary (t_results t1) with
  | Ok s =>
      analysis_tasks r.1.2 !! task_id = Some (finished clock t1 s) /\
      disk r.1.2 = saved_disk fs_write task_id (finished clock t1 s) (disk w)
  | Raise e =>
      analysis_tasks r.1.2 !! task_id = Some (failed t1 e) /\
      disk r.1.2 = disk w
  end.
Proof.
  intros Ht. cbv zeta.
  assert (run_analysis self fs_write clock task_id w
          = run_analysis self fs_write clock task_id
              (World (<[task_id := t]> (analysis_tasks w)) (disk w))) as ->
    by (by rewrite <- (world_present w task_id t Ht)).
  destruct (run_analysis_present task_id t (analysis_tasks w) (disk w))
    as (loop_ev & _ & ->).
  cbv zeta.
  destruct (_generate_summary (t_results (after_modules self t))) as [s|e];
    cbn [fst snd analysis_tasks disk].
  all: split; [reflexivity|].
  all: split; [intros other Hne; by rewrite lookup_insert_ne|].
  all: split; [apply lookup_insert_eq|reflexivity].
Qed.

Lemma after_modules_results (t : task) (m : string) :
  t_results (after_modules self t) !! m =
  match module_call self t m with
  | Some o =>
      if bool_decide (m ∈ t_modules t) then Some (entry_of o)
      else t_results t !! m
  | None => t_results t !! m
  end.
Proof. unfold after_modules. by rewrite dispatched_results. Qed.

Lemma after_modules_frame (t : task) :
  let t1 := after_modules self t in
  t_status t1 = Running /\ t_modules t1 = t_modules t /\
  t_url t1 = t_url t /\ t_summary t1 = t_summary t /\
  t_completed_at t1 = t_completed_at t /\ t_error t1 = t_error t.
Proof.
  unfold after_modules.
  destruct (foldl_dispatched_frame self (t_modules t)
              (set_status Running t)) as (-> & -> & -> & -> & -> & ->).
  done.
Qed.

Lemma after_modules_dom (t : task) :
  dom (t_results (after_modules self t))
  = dom (t_results t) ∪ (list_to_set (t_modules t) ∩ recognized).
Proof.
  apply set_eq. intros m.
  rewrite elem_of_union, elem_of_intersection, elem_of_list_to_set,
    !elem_of_dom, after_modules_results, <- (module_call_recognized self t m).
  destruct (module_call self t m) as [o|].
  - destruct (decide (m ∈ t_modules t)) as [Hin|Hin].
    + rewrite bool_decide_eq_true_2 by done. split; eauto.
    + rewrite bool_decide_eq_false_2 by done. split; [eauto|].
      intros [?|[? _]]; done.
  - split; [eauto|]. intros [?|[_ [? ?]]]; [done|discriminate].
Qed.

End Run.

(** ** The results mapping of a finished run *)

(** C2.  When the record of a task was created with an empty results
    mapping and the run leaves it completed, the keys of its results are
    exactly the requested names that the dispatcher recognizes: each of
    them holds the payload or the error marker of its module, and a name
    outside the recognized set has no entry. *)
Theorem completed_results_keys
    (self : analyzers) (fs_write : string -> write_outcome) (clock : string)
    (task_id : string) (w : world) (t : task) :
  analysis_tasks w !! task_id = Some t ->
  t_results t = ∅ ->
  let w' := (run_analysis self fs_write clock task_id w).1.2 in
  exists t',
    analysis_tasks w' !! task_id = Some t' /\
    (t_status t' = Completed ->
     dom (t_results t') = list_to_set (t_modules t) ∩ recognized /\
     (forall m, m ∈ t_modules t -> m ∈ recognized ->
        exists o, module_call self t m = Some o /\
                  t_results t' !! m = Some (entry_of o)) /\
     (forall m, m ∉ recognized -> t_results t' !! m = None)).
Proof.
  intros Ht Hempty w'.
  destruct (run_analysis_final self fs_write clock task_id w t Ht)
    as (_ & _ & Hfin).
  assert (exists t', analysis_tasks w' !! task_id = Some t' /\
                     t_results t' = t_results (after_modules self t))
    as (t' & Ht' & Hres).
  { destruct (_generate_summary (t_results (after_modules self t)));
      destruct Hfin as [Hl _]; eexists; (split; [exact Hl|reflexivity]). }
  exists t'. split; [exact Ht'|]. intros _. rewrite Hres.
  split; [|split].
  - rewrite after_modules_dom, Hempty, dom_empty_L. set_solver.
  - intros m Hin Hrec.
    apply (module_call_recognized self t) in Hrec as [o Ho].
    exists o. split; [exact Ho|].
    rewrite after_modules_results, Ho.
    by rewrite bool_decide_eq_true_2.
  - intros m Hrec. rewrite after_modules_results.
    destruct (module_call self t m) as [o|] eqn:Ho.
    + exfalso. apply Hrec, (module_call_recognized self t). eauto.
    + by rewrite Hempty.
Qed.

(** ** Failure of one module *)

(** C3.  When the invocation of a requested module raises [e], the loop
    body stores the error marker of [e] under the module's name and
    returns normally, so the loop goes on; at the end of the run the
    marker is the module's entry, every requested and recognized name has
    an entry, the run completes whenever the summary can be computed, and
    the entries of all other names are what they are with analyzers that
    differ only in the failing module. *)
Theorem module_failure_isolated
    (self self' : analyzers) (fs_write : string -> write_outcome)
    (clock : string) (task_id : string) (w : world) (t : task)
    (m : string) (e : exn) :
  analysis_tasks w !! task_id = Some t ->
  m ∈ t_modules t ->
  module_call self t m = Some (Raise e) ->
  (forall m', m' <> m -> module_call self' t m' = module_call self t m') ->
  let r := run_analysis self fs_write clock task_id w in
  let r' := run_analysis self' fs_write clock task_id w in
  (dispatch self task_id m w).1
  = (Ok tt,
     World (<[task_id := set_result m (error_marker (str e)) t]>
              (analysis_tasks w)) (disk w)) /\
  r.1.1 = Ok tt /\
  exists t1 t1',
    analysis_tasks r.1.2 !! task_id = Some t1 /\
    analysis_tasks r'.1.2 !! task_id = Some t1' /\
    t_results t1 !! m = Some (error_marker (str e)) /\
    (forall m', m' <> m -> t_results t1 !! m' = t_results t1' !! m') /\
    (forall m', m' ∈ t_modules t -> m' ∈ recognized ->
       is_Some (t_results t1 !! m')) /\
    (forall s, _generate_summary (t_results t1) = Ok s ->
       t_status t1 = Completed /\ t_summary t1 = Some s).
Proof.
  intros Ht Hin Hm Hsame r r'.
  split; [|split].
  - rewrite (world_present w task_id t Ht) at 1.
    destruct (dispatch_run self task_id m t (analysis_tasks w) (disk w))
      as (ev & -> & _).
    unfold dispatched. rewrite Hm. reflexivity.
  - exact (proj1 (run_analysis_final self fs_write clock task_id w t Ht)).
  - destruct (run_analysis_final self fs_write clock task_id w t Ht)
      as (_ & _ & Hfin).
    destruct (run_analysis_final self' fs_write clock task_id w t Ht)
      as (_ & _ & Hfin').
    fold r in Hfin. fold r' in Hfin'.
    assert (exists t1, analysis_tasks r.1.2 !! task_id = Some t1 /\
              t_results t1 = t_results (after_modules self t) /\
              (forall s, _generate_summary (t_results t1) = Ok s ->
                 t_status t1 = Completed /\ t_summary t1 = Some s))
      as (t1 & Ht1 & Hres & Hdone).
    { destruct (_generate_summary (t_results (after_modules self t)))
        as [s|e'] eqn:Hs; destruct Hfin as [Hl _]; eexists;
        (split; [exact Hl|]); (split; [reflexivity|]); cbn; intros s'.
      - rewrite Hs. intros [= ->]. done.
      - rewrite Hs. discriminate. }
    assert (exists t1', analysis_tasks r'.1.2 !! task_id = Some t1' /\
              t_results t1' = t_results (after_modules self' t))
      as (t1' & Ht1' & Hres').
    { destruct (_generate_summary (t_results (after_modules self' t)));
        destruct Hfin' as [Hl _]; eexists; (split; [exact Hl|reflexivity]). }
    exists t1, t1'. repeat (split; [assumption|]).
    split; [|split; [|split; [|exact Hdone]]]; rewrite Hres, ?Hres'.
    + rewrite after_modules_results, Hm. by rewrite bool_decide_eq_true_2.
    + intros m' Hne. rewrite !after_modules_results, (Hsame m' Hne).
      reflexivity.
    + intros m' Hin' Hrec.
      apply (module_call_recognized self t) in Hrec as [o Ho].
      rewrite after_modules_results, Ho.
      rewrite bool_decide_eq_true_2 by done. eauto.
Qed.

(** ** Failure outside the per-module handler *)

(** C4.  When the summary of the results cannot be computed and raises
    [e], [run_analysis] returns normally with the record in status error
    carrying [str(e)]; no summary and no completion time is written, and
    the disk is not touched. *)
Theorem summary_failure_sets_error
    (self : analyzers) (fs_write : string -> write_outcome) (clock : string)
    (task_id : string) (w : world) (t : task) (e : exn) :
  analysis_tasks w !! task_id = Some t ->
  _generate_summary (t_results (after_modules self t)) = Raise e ->
  let r := run_analysis self fs_write clock task_id w in
  r.1.1 = Ok tt /\
  disk r.1.2 = disk w /\
  exists t',
    analysis_tasks r.1.2 !! task_id = Some t' /\
    t_results t' = t_results (after_modules self t) /\
    t_status t' = Error /\
    t_error t' = Some (str e) /\
    t_summary t' = t_summary t /\
    t_completed_at t' = t_completed_at t.
Proof.
  intros Ht He r.
  destruct (run_analysis_final self fs_write clock task_id w t Ht)
    as (Hok & _ & Hfin).
  fold r in Hok, Hfin. rewrite He in Hfin. destruct Hfin as [Hl Hd].
  split; [exact Hok|]. split; [exact Hd|].
  eexists. split; [exact Hl|].
  destruct (after_modules_frame self t) as (_ & _ & _ & Hs & Hc & _).
  cbn. rewrite Hs, Hc. done.
Qed.

(** ** Looking a task up *)

Lemma load_results_run (task_id : string) (w : world) :
  exists ev,
    _load_results task_id w =
    (Ok (match disk w !! filename_of task_id with
         | Some (FileRecord t) => Some t
         | Some FileUnreadable | None => None
         end), w, ev).
Proof.
  unfold _load_results, read_json. rewrite try_except_run.
  destruct (disk w !! filename_of task_id) as [[t|]|]; eexists; reflexivity.
Qed.

Lemma get_analysis_results_run (task_id : string) (w : world) :
  exists ev,
    get_analysis_results task_id w =
    (Ok (match analysis_tasks w !! task_id with
         | Some t => Some t
         | None =>
             match disk w !! filename_of task_id with
             | Some (FileRecord t) => Some t
             | Some FileUnreadable | None => None
             end
         end), w, ev).
Proof.
  unfold get_analysis_results. rewrite bind_run. unfold task_in, task_of.
  destruct (analysis_tasks w !! task_id) as [t|] eqn:Ht; cbn [negb].
  - rewrite bind_run, Ht. eexists; reflexivity.
  - rewrite bind_run. destruct (load_results_run task_id w) as (ev & ->).
    destruct (disk w !! filename_of task_id) as [[t|]|];
      eexists; reflexivity.
Qed.

(** C5.  [get_analysis_results] returns the record of the store when the
    identifier is in the store; otherwise the record loaded from the
    per-task file when the file exists and can be read; otherwise [None].
    It never raises and changes neither the store nor the disk. *)
Theorem get_analysis_results_cases (task_id : string) (w : world) :
  let r := get_analysis_results task_id w in
  r.1.2 = w /\
  (forall e, r.1.1 <> Raise e) /\
  r.1.1 =
  Ok (match analysis_tasks w !! task_id with
      | Some t => Some t
      | None =>
          match disk w !! filename_of task_id with
          | Some (FileRecord t) => Some t
          | Some FileUnreadable => None
          | None => None
          end
      end).
Proof.
  cbv zeta. destruct (get_analysis_results_run task_id w) as (ev & ->).
  cbn [fst snd]. repeat split. intros e. discriminate.
Qed.

(** ** A run for an identifier that is not in the store *)

(** C7.  For an identifier that is not in the task store, [run_analysis]
    returns normally, leaves the store and the disk as they are, and its
    only effect is the log line naming the identifier. *)
Theorem run_analysis_missing
    (self : analyzers) (fs_write : string -> write_outcome) (clock : string)
    (task_id : string) (w : world) :
  analysis_tasks w !! task_id = None ->
  run_analysis self fs_write clock task_id w
  = (Ok tt, w, [Logged ERROR ("Task " +:+ task_id +:+ " not found")]).
Proof.
  intros Hnone. unfold run_analysis. rewrite bind_run.
  unfold task_in. rewrite Hnone. reflexivity.
Qed.

(** ** Persistence *)

(** C9.  A run that leaves the record in status error has written
    nothing to disk; so when no file existed for the identifier, a later
    lookup from a store that no longer holds it finds nothing. *)
Theorem errored_task_not_persisted
    (self : analyzers) (fs_write : string -> write_outcome) (clock : string)
    (task_id : string) (w : world) (t t' : task) :
  analysis_tasks w !! task_id = Some t ->
  let w' := (run_analysis self fs_write clock task_id w).1.2 in
  analysis_tasks w' !! task_id = Some t' ->
  t_status t' = Error ->
  disk w' = disk w /\
  (disk w !! filename_of task_id = None ->
   forall restarted : gmap string task,
     restarted !! task_id = None ->
     (get_analysis_results task_id (World restarted (disk w'))).1.1
     = Ok None).
Proof.
  intros Ht w' Ht' Herr.
  destruct (run_analysis_final self fs_write clock task_id w t Ht)
    as (_ & _ & Hfin). fold w' in Hfin.
  assert (disk w' = disk w) as Hdisk.
  { destruct (_generate_summary (t_results (after_modules self t)));
      destruct Hfin as [Hl Hd]; [|exact Hd].
    rewrite Ht' in Hl. injection Hl as ->. discriminate. }
  split; [exact Hdisk|]. intros Hfile restarted Hgone.
  destruct (get_analysis_results_run task_id (World restarted (disk w')))
    as (ev & ->).
  cbn [fst snd analysis_tasks disk]. by rewrite Hgone, Hdisk, Hfile.
Qed.

Lemma run_analysis_run
    (self : analyzers) (fs_write : string -> write_outcome) (clock : string)
    (task_id : string) (w : world) (t : task) :
  analysis_tasks w !! task_id = Some t ->
  exists loop_ev,
    Forall (keeps_status task_id Running) loop_ev /\
    run_analysis self fs_write clock task_id w =
    let t1 := after_modules self t in
    let head_ev :=
      [ Stored task_id (set_status Running t);
        Logged INFO
          ("Starting analysis for task " +:+ task_id +:+ " ("
           +:+ t_url t +:+ ")") ] in
    match _generate_summary (t_results t1) with
    | Ok s =>
        (Ok tt,
         World (<[task_id := finished clock t1 s]> (analysis_tasks w))
               (saved_disk fs_write task_id (finished clock t1 s) (disk w)),
         head_ev ++ loop_ev ++ run_events_ok self fs_write clock task_id t s)
    | Raise e =>
        (Ok tt, World (<[task_id := failed t1 e]> (analysis_tasks w)) (disk w),
         head_ev ++ loop_ev ++ run_events_failed self task_id t e)
    end.
Proof.
  intros Ht.
  destruct (run_analysis_present self fs_write clock task_id t
              (analysis_tasks w) (disk w)) as (loop_ev & Hev & Hrun).
  exists loop_ev. split; [exact Hev|].
  by rewrite <- Hrun, <- (world_present w task_id t Ht).
Qed.

Lemma status_history_app (task_id : string) (evs1 evs2 : list event) :
  status_history task_id (evs1 ++ evs2)
  = status_history task_id evs1 ++ status_history task_id evs2.
Proof. apply omap_app. Qed.

Lemma status_history_stored (task_id : string) (t : task)
    (evs : list event) :
  status_history task_id (Stored task_id t :: evs)
  = t_status t :: status_history task_id evs.
Proof. unfold status_history. cbn. by rewrite decide_True. Qed.

Lemma status_history_logged (task_id : string) (lvl : level) (msg : string)
    (evs : list event) :
  status_history task_id (Logged lvl msg :: evs)
  = status_history task_id evs.
Proof. reflexivity. Qed.

Lemma status_history_keeps (task_id : string) (st : status)
    (evs : list event) :
  Forall (keeps_status task_id st) evs ->
  status_history task_id evs
  = replicate (length (status_history task_id evs)) st.
Proof.
  induction 1 as [|ev evs Hev _ IH]; [reflexivity|].
  destruct ev as [lvl msg|i t'].
  - rewrite status_history_logged. exact IH.
  - destruct Hev as [-> <-]. rewrite status_history_stored.
    cbn [length replicate]. by rewrite <- IH.
Qed.

Lemma status_history_save_events
    (fs_write : string -> write_outcome) (task_id : string) :
  status_history task_id (save_events fs_write task_id) = [].
Proof. unfold save_events. by destruct (fs_write (filename_of task_id)). Qed.

Lemma replicate_app_cons {A : Type} (n : nat) (x : A) (l : list A) :
  replicate n x ++ x :: l = x :: replicate n x ++ l.
Proof. induction n as [|n IH]; cbn; [reflexivity|]. by rewrite IH. Qed.

(** The statuses written by one run: running at least once, then twice
    the final status. *)
Lemma run_status_history
    (self : analyzers) (fs_write : string -> write_outcome) (clock : string)
    (task_id : string) (w : world) (t : task) :
  analysis_tasks w !! task_id = Some t ->
  exists n,
    status_history task_id (run_analysis self fs_write clock task_id w).2
    = replicate (S n) Running ++
      replicate 2
        (match _generate_summary (t_results (after_modules self t)) with
         | Ok _ => Completed
         | Raise _ => Error
         end).
Proof.
  intros Ht.
  destruct (run_analysis_run self fs_write clock task_id w t Ht)
    as (loop_ev & Hev & ->).
  apply status_history_keeps in Hev.
  set (n := length (status_history task_id loop_ev)) in Hev.
  destruct (after_modules_frame self t) as (Hst & _).
  cbv zeta.
  destruct (_generate_summary (t_results (after_modules self t))) as [s|e];
    cbn [snd].
  - exists (S n). unfold run_events_ok. cbv zeta.
    rewrite !status_history_app, Hev.
    rewrite status_history_save_events.
    rewrite status_history_stored, status_history_logged.
    rewrite !status_history_stored, status_history_logged.
    cbn [status_history omap list_omap]. cbn [t_status set_summary set_status
      finished set_completed_at]. rewrite Hst.
    cbn [app replicate]. f_equal. apply replicate_app_cons.
  - exists n. unfold run_events_failed. cbv zeta.
    rewrite !status_history_app, Hev.
    rewrite status_history_stored, !status_history_logged.
    rewrite !status_history_stored.
    reflexivity.
Qed.

(** C10.  When the summary was computed and the write of the per-task
    file raises, the failure is logged inside [_save_results] and goes no
    further: [run_analysis] returns normally, the record is completed with
    its summary and completion time, and its status was never error. *)
Theorem save_failure_swallowed
    (self : analyzers) (fs_write : string -> write_outcome) (clock : string)
    (task_id : string) (w : world) (t : task) (s : summary) (e : exn) :
  analysis_tasks w !! task_id = Some t ->
  _generate_summary (t_results (after_modules self t)) = Ok s ->
  (fs_write (filename_of task_id) = OpenFails e \/
   fs_write (filename_of task_id) = DumpFails e) ->
  let r := run_analysis self fs_write clock task_id w in
  r.1.1 = Ok tt /\
  Logged ERROR
    ("Failed to save results for task " +:+ task_id +:+ ": " +:+ str e)
    ∈ r.2 /\
  (Error ∉ status_history task_id r.2) /\
  exists t',
    analysis_tasks r.1.2 !! task_id = Some t' /\
    t_status t' = Completed /\
    t_summary t' = Some s /\
    t_completed_at t' = Some clock /\
    t_error t' = t_error t.
Proof.
  intros Ht Hs Hfail r.
  destruct (run_analysis_final self fs_write clock task_id w t Ht)
    as (Hok & _ & Hfin).
  fold r in Hok, Hfin. rewrite Hs in Hfin. destruct Hfin as [Hl _].
  split; [exact Hok|]. split; [|split].
  - subst r.
    destruct (run_analysis_run self fs_write clock task_id w t Ht)
      as (loop_ev & _ & ->).
    cbv zeta. rewrite Hs. cbn [snd]. unfold run_events_ok. cbv zeta.
    rewrite !elem_of_app. right. right. right. left.
    unfold save_events.
    destruct Hfail as [-> | ->]; apply elem_of_cons; by left.
  - subst r.
    destruct (run_status_history self fs_write clock task_id w t Ht)
      as (n & ->).
    rewrite Hs, elem_of_app, !elem_of_replicate.
    intros [[? _]|[? _]]; discriminate.
  - eexists. split; [exact Hl|].
    destruct (after_modules_frame self t) as (_ & _ & _ & _ & _ & He).
    cbn. by rewrite He.
Qed.

(** ** The status along the life of a task *)

Lemma start_analysis_run (uuid4 now url : string) (modules : list string)
    (depth : Z) (device : string) (w : world) :
  start_analysis uuid4 now url modules depth device w =
  let t := Task Pending url modules depth device now ∅ now None None None in
  (Ok uuid4, World (<[uuid4 := t]> (analysis_tasks w)) (disk w),
   [ Stored uuid4 t;
     Logged INFO
       ("Analysis task " +:+ uuid4 +:+ " created for URL: " +:+ url) ]).
Proof. reflexivity. Qed.

Lemma lifecycle_sorted (n k : nat) (final : status) :
  final_status final ->
  StronglySorted status_forward
    (Pending :: replicate n Running ++ replicate k final).
Proof.
  intros Hfinal. constructor.
  - induction n as [|n IH]; cbn [replicate app].
    + induction k as [|k IHk]; cbn [replicate]; constructor.
      * exact IHk.
      * apply Forall_forall. intros x [-> _]%elem_of_replicate.
        destruct Hfinal as [-> | ->]; done.
    + constructor; [exact IH|].
      apply Forall_forall. intros x [Hx|Hx]%elem_of_app;
        apply elem_of_replicate in Hx as [-> _]; [done|].
      destruct Hfinal as [-> | ->]; done.
  - apply Forall_forall. intros x _. done.
Qed.

(** C8.  Along [start_analysis] followed by [run_analysis] the statuses
    written to the record are: pending once at creation, then running,
    then one final status, completed or error.  So every status is
    followed only by itself or by later statuses of the lifecycle: a
    status that was left does not come back, and a final status does not
    change. *)
Theorem status_moves_forward
    (self : analyzers) (fs_write : string -> write_outcome) (clock : string)
    (uuid4 now url : string) (modules : list string) (depth : Z)
    (device : string) (w : world) :
  let r := (start_analysis uuid4 now url modules depth device
              ≫= run_analysis self fs_write clock) w in
  let h := status_history uuid4 r.2 in
  (exists n k final,
     h = Pending :: replicate (S n) Running ++ replicate (S k) final /\
     final_status final) /\
  StronglySorted status_forward h.
Proof.
  cbv zeta. rewrite bind_run, start_analysis_run. cbv zeta.
  set (t0 := Task Pending url modules depth device now ∅ now None None None).
  set (w1 := World (<[uuid4 := t0]> (analysis_tasks w)) (disk w)).
  assert (analysis_tasks w1 !! uuid4 = Some t0) as Ht0
    by apply lookup_insert_eq.
  destruct (run_status_history self fs_write clock uuid4 w1 t0 Ht0)
    as (n & Hh).
  destruct (run_analysis self fs_write clock uuid4 w1) as [[r2 w2] ev2].
  cbn [snd] in Hh |- *.
  rewrite status_history_app, status_history_stored, status_history_logged.
  cbn [status_history omap list_omap app] in Hh |- *. rewrite Hh.
  set (final := match _generate_summary _ with
                | Ok _ => Completed
                | Raise _ => Error
                end).
  assert (final_status final) as Hfinal.
  { subst final. destruct (_generate_summary _); [by left|by right]. }
  split.
  - exists n, 1%nat, final. done.
  - by apply lifecycle_sorted.
Qed.

(** ** The scenario of the two placeholder modules *)

(** C6.  With the modules of the source, a task submitted for
    [["performance"; "seo"]] ends completed; its performance entry has
    [lighthouse_score] 85, its seo entry has [score] 78, the summary's
    [overall_score] is 163/2 = 81.5 and its recommendations are empty. *)
Theorem performance_seo_scenario
    (fs_write : string -> write_outcome) (clock : string)
    (uuid4 now url : string) (depth : Z) (device : string) (w : world) :
  let r := (start_analysis uuid4 now url ["performance"; "seo"] depth device
              ≫= run_analysis placeholders fs_write clock) w in
  r.1.1 = Ok tt /\
  exists t perf seo s q,
    analysis_tasks r.1.2 !! uuid4 = Some t /\
    t_status t = Completed /\
    t_results t !! "performance" = Some perf /\
    dict_get "lighthouse_score" perf = Some (VInt 85) /\
    t_results t !! "seo" = Some seo /\
    dict_get "score" seo = Some (VInt 78) /\
    t_summary t = Some s /\
    overall_score s = VFloat q /\
    (q == 81.5)%Q /\
    recommendations s = [].
Proof.
  cbv zeta. rewrite bind_run, start_analysis_run. cbv zeta.
  set (t0 := Task Pending url ["performance"; "seo"] depth device now ∅ now
                  None None None).
  set (w1 := World (<[uuid4 := t0]> (analysis_tasks w)) (disk w)).
  assert (analysis_tasks w1 !! uuid4 = Some t0) as Ht0
    by apply lookup_insert_eq.
  destruct (run_analysis_final placeholders fs_write clock uuid4 w1 t0 Ht0)
    as (Hok & _ & Hfin).
  destruct (run_analysis placeholders fs_write clock uuid4 w1)
    as [[r2 w2] ev2].
  cbn [fst snd] in Hok, Hfin |- *.
  split; [exact Hok|].
  assert (t_results (after_modules placeholders t0)
          = <["seo" := entry_of (placeholder_seo url depth)]>
              (<["performance" :=
                   entry_of (placeholder_performance url device)]> ∅))
    as Hres by reflexivity.
  rewrite Hres in Hfin.
  assert (exists s,
            _generate_summary
              (<["seo" := entry_of (placeholder_seo url depth)]>
                 (<["performance" :=
                      entry_of (placeholder_performance url device)]> ∅))
            = Ok s /\
            overall_score s = VFloat (163 # 2) /\ recommendations s = [])
    as (s & Hs & Hscore & Hrec).
  { eexists. split; [vm_compute; reflexivity|]. split; reflexivity. }
  rewrite Hs in Hfin. destruct Hfin as [Hl _].
  eexists _, _, _, s, (163 # 2)%Q.
  split; [exact Hl|]. split; [reflexivity|].
  cbn [t_results finished set_completed_at set_status set_summary].
  rewrite Hres.
  split; [reflexivity|]. split; [reflexivity|].
  split; [reflexivity|]. split; [reflexivity|].
  split; [reflexivity|]. split; [exact Hscore|].
  split; [reflexivity|exact Hrec].
Qed.

(** * Further properties of the code *)

(** ** The aggregator: recommendations, issues and metrics *)

Lemma generate_summary_cases (results : gmap string pydict) (s : summary) :
  _generate_summary results = Ok s ->
  exists s2,
    averaged (collected results).1 (collected results).2 = Ok s2 /\
    s = if slow_fcp results then add_fcp_recommendation s2 else s2.
Proof.
  unfold _generate_summary. fold (collected results).
  destruct (collected results) as [scores s1]. cbn [fst snd].
  fold (averaged scores s1).
  destruct (averaged scores s1) as [s2|e]; cbn [mbind outcome_bind];
    [|discriminate].
  intros H. exists s2. split; [reflexivity|].
  unfold slow_fcp, fcp_of.
  destruct (results !! "performance") as [perf|]; cbn [mbind option_bind];
    [|congruence].
  destruct (dict_get "metrics" perf) as [pm|]; cbn [mbind option_bind];
    [|congruence].
  destruct pm as [| | | | |l|d]; cbn [py_contains mbind outcome_bind] in H;
    try discriminate.
  - destruct (str_contains "first_contentful_paint" s0);
      cbn [mbind outcome_bind py_getitem type_error] in H;
      [discriminate|congruence].
  - destruct (existsb _ l);
      cbn [mbind outcome_bind py_getitem type_error] in H;
      [discriminate|congruence].
  - unfold dict_has in H. cbn [py_getitem] in H.
    destruct (dict_get "first_contentful_paint" d) as [v|];
      cbn [mbind outcome_bind option_bind] in H |- *; [|congruence].
    unfold py_gt in H.
    destruct (as_number v) as [q|]; cbn [mbind outcome_bind type_error] in H;
      [|discriminate].
    change (inject_Z 2000) with 2000%Q in H.
    destruct (Qlt_le_dec 2000 q); congruence.
Qed.

Lemma averaged_fields (scores : list value) (s1 s2 : summary) :
  averaged scores s1 = Ok s2 ->
  metrics s2 = metrics s1 /\ summary_issues s2 = summary_issues s1 /\
  recommendations s2 = recommendations s1.
Proof.
  destruct scores as [|v scores]; cbn [averaged].
  - by intros [= <-].
  - destruct (py_sum (v :: scores)) as [total|]; cbn [mbind outcome_bind];
      [|discriminate].
    destruct (py_truediv total _); cbn [mbind outcome_bind];
      [|discriminate].
    by intros [= <-].
Qed.

Lemma collected_fields (results : gmap string pydict) :
  summary_issues (collected results).2 = Issues 0 0 0 0 /\
  recommendations (collected results).2 = [] /\
  metrics (collected results).2 !! "performance"
  = score_of "performance" "lighthouse_score" results /\
  metrics (collected results).2 !! "seo" = score_of "seo" "score" results /\
  metrics (collected results).2 !! "accessibility"
  = score_of "accessibility" "score" results /\
  dom (metrics (collected results).2)
  ⊆ {["performance"; "seo"; "accessibility"]}.
Proof.
  unfold collected, collect_score, score_of.
  destruct (results !! "performance") as [perf|]; cbn [mbind option_bind];
    [destruct (dict_get "lighthouse_score" perf)|];
    (destruct (results !! "seo") as [seo|]; cbn [mbind option_bind];
      [destruct (dict_get "score" seo)|]);
    (destruct (results !! "accessibility") as [acc|]; cbn [mbind option_bind];
      [destruct (dict_get "score" acc)|]);
    cbn [fst snd set_metric metrics summary_issues recommendations];
    repeat (split; [reflexivity|]);
    rewrite ?dom_insert_L, ?dom_empty_L; set_solver.
Qed.

(** X1.  The single recommendation rule: a returned summary has the
    first-contentful-paint recommendation exactly when the performance
    entry's [metrics] dict has a numeric [first_contentful_paint] above
    2000; the count of important issues is the number of recommendations
    and the other three counts are 0. *)
Theorem recommendation_rule (results : gmap string pydict) (s : summary) :
  _generate_summary results = Ok s ->
  recommendations s
  = (if slow_fcp results then [fcp_recommendation] else []) /\
  summary_issues s
  = Issues 0 (if slow_fcp results then 1 else 0) 0 0.
Proof.
  intros Hs. destruct (generate_summary_cases _ _ Hs) as (s2 & Hav & ->).
  destruct (averaged_fields _ _ _ Hav) as (_ & Hi & Hr).
  destruct (collected_fields results) as (Hi0 & Hr0 & _).
  rewrite Hi0 in Hi. rewrite Hr0 in Hr.
  destruct (slow_fcp results); cbn; rewrite Hi, Hr; done.
Qed.

(** X2.  The [metrics] of a returned summary hold exactly the scores
    that were averaged: under each of the three module names the score
    field found in that module's entry, and no other key. *)
Theorem summary_metrics (results : gmap string pydict) (s : summary) :
  _generate_summary results = Ok s ->
  metrics s !! "performance"
  = score_of "performance" "lighthouse_score" results /\
  metrics s !! "seo" = score_of "seo" "score" results /\
  metrics s !! "accessibility" = score_of "accessibility" "score" results /\
  dom (metrics s) ⊆ {["performance"; "seo"; "accessibility"]}.
Proof.
  intros Hs. destruct (generate_summary_cases _ _ Hs) as (s2 & Hav & ->).
  destruct (averaged_fields _ _ _ Hav) as (Hm & _ & _).
  destruct (collected_fields results) as (_ & _ & Hp & Hseo & Ha & Hdom).
  assert (metrics (if slow_fcp results then add_fcp_recommendation s2
                   else s2) = metrics (collected results).2) as ->.
  { by destruct (slow_fcp results). }
  done.
Qed.

(** ** The aggregator: the overall score stays within the scores *)

Lemma Qsum_bounds (lo hi : Q) (qs : list Q) :
  Forall (fun q => lo <= q /\ q <= hi)%Q qs ->
  (inject_Z (Z.of_nat (length qs)) * lo <= Qsum qs /\
   Qsum qs <= inject_Z (Z.of_nat (length qs)) * hi)%Q.
Proof.
  induction 1 as [|q qs [Hlo Hhi] _ [IHlo IHhi]].
  - cbn [length Z.of_nat]. change (Qsum []) with 0%Q.
    assert (inject_Z 0 * lo == 0)%Q as -> by ring.
    assert (inject_Z 0 * hi == 0)%Q as -> by ring.
    split; apply Qle_refl.
  - change (Qsum (q :: qs)) with (q + Qsum qs)%Q.
    rewrite length_cons, Nat2Z.inj_succ, <- Z.add_1_r, inject_Z_plus.
    split.
    + assert ((inject_Z (Z.of_nat (length qs)) + inject_Z 1) * lo
              == lo + inject_Z (Z.of_nat (length qs)) * lo)%Q as -> by ring.
      by apply Qplus_le_compat.
    + assert ((inject_Z (Z.of_nat (length qs)) + inject_Z 1) * hi
              == hi + inject_Z (Z.of_nat (length qs)) * hi)%Q as -> by ring.
      by apply Qplus_le_compat.
Qed.

Lemma arithmetic_mean_bounds (lo hi : Q) (qs : list Q) :
  qs <> [] ->
  Forall (fun q => lo <= q /\ q <= hi)%Q qs ->
  (lo <= arithmetic_mean qs /\ arithmetic_mean qs <= hi)%Q.
Proof.
  intros Hne Hall. destruct qs as [|q qs]; [done|].
  unfold arithmetic_mean.
  destruct (Qsum_bounds lo hi _ Hall) as [Hlo Hhi].
  assert (0 < inject_Z (Z.of_nat (length (q :: qs))))%Q as Hpos.
  { change 0%Q with (inject_Z 0). rewrite <- Zlt_Qlt. cbn [length]. lia. }
  split.
  - apply Qle_shift_div_l; [exact Hpos|].
    by rewrite Qmult_comm.
  - apply Qle_shift_div_r; [exact Hpos|].
    by rewrite Qmult_comm.
Qed.

(** X3.  Rounding the mean does not leave the range of the scores:
    when at least one score is present, the present scores are [int]s
    and all of them lie between two binary64 numbers [lo] and [hi], the
    overall score of the returned summary lies between [lo] and [hi]. *)
Theorem overall_score_bounds (results : gmap string pydict) (s : summary)
    (zs : list Z) (lo hi : Q) :
  _generate_summary results = Ok s ->
  mapM int_of (present_scores results) = Some zs ->
  zs <> [] ->
  binary64 lo -> binary64 hi ->
  Forall (fun z => lo <= inject_Z z /\ inject_Z z <= hi)%Q zs ->
  exists q, as_number (overall_score s) = Some q /\ (lo <= q /\ q <= hi)%Q.
Proof.
  intros Hs Hzs Hne Hlo Hhi Hall.
  destruct (summary_score_rounded _ _ _ Hzs Hs) as (q & Hq & Hnear & _).
  exists q. split; [exact Hq|].
  destruct (arithmetic_mean_bounds lo hi (inject_Z <$> zs)) as [H1 H2].
  - by destruct zs.
  - by apply Forall_fmap.
  - exact (nearest_binary64_between _ _ _ _ Hnear Hlo Hhi H1 H2).
Qed.

(** ** Creating, running and looking up *)

Lemma run_analysis_absent
    (self : analyzers) (fs_write : string -> write_outcome) (clock : string)
    (task_id : string) (w : world) :
  analysis_tasks w !! task_id = None ->
  (run_analysis self fs_write clock task_id w).1 = (Ok tt, w).
Proof.
  intros Hnone. unfold run_analysis. rewrite bind_run.
  unfold task_in. rewrite Hnone. reflexivity.
Qed.

Lemma list_ascii_of_string_app (a b : string) :
  list_ascii_of_string (a +:+ b)
  = list_ascii_of_string a ++ list_ascii_of_string b.
Proof.
  induction a as [|c a IH]; [reflexivity|].
  change (list_ascii_of_string (String c a +:+ b))
    with (c :: list_ascii_of_string (a +:+ b)).
  by rewrite IH.
Qed.

Lemma string_app_inv_tail (a b s : string) : a +:+ s = b +:+ s -> a = b.
Proof.
  intros H. apply (f_equal list_ascii_of_string) in H.
  rewrite !list_ascii_of_string_app in H. apply app_inv_tail in H.
  apply (f_equal string_of_list_ascii) in H.
  by rewrite !string_of_list_ascii_of_string in H.
Qed.

Lemma filename_of_inj (a b : string) : filename_of a = filename_of b -> a = b.
Proof.
  unfold filename_of. intros H.
  apply (inj (String.append storage_dir)) in H.
  apply (inj (String.append "/")) in H.
  by apply string_app_inv_tail in H.
Qed.

Lemma saved_disk_other (fs_write : string -> write_outcome)
    (task_id : string) (tf : task) (d : gmap string file) (f : string) :
  f <> filename_of task_id ->
  saved_disk fs_write task_id tf d !! f = d !! f.
Proof.
  intros Hne. unfold saved_disk.
  destruct (fs_write (filename_of task_id)); [|reflexivity|];
    by rewrite lookup_insert_ne.
Qed.

(** X4.  A record that [start_analysis] has just created is what a
    lookup of the returned identifier finds: pending, with the request's
    parameters, empty results and no summary; the records of all other
    identifiers and the disk are as before. *)
Theorem start_then_lookup (uuid4 now url : string) (modules : list string)
    (depth : Z) (device : string) (w : world) :
  let r := (id ← start_analysis uuid4 now url modules depth device;
            found ← get_analysis_results id;
            mret (id, found)) w in
  r.1.1 = Ok (uuid4, Some (created url modules depth device now)) /\
  (forall other, other <> uuid4 ->
     analysis_tasks r.1.2 !! other = analysis_tasks w !! other) /\
  disk r.1.2 = disk w.
Proof.
  cbv zeta. rewrite bind_run, start_analysis_run. cbv beta iota zeta.
  rewrite bind_run.
  destruct (get_analysis_results_run uuid4
              (World (<[uuid4 := created url modules depth device now]>
                        (analysis_tasks w)) (disk w))) as (ev & Hget).
  unfold created in *. rewrite Hget.
  cbn [analysis_tasks disk]. rewrite lookup_insert_eq. cbn.
  split; [reflexivity|]. split; [|reflexivity].
  intros other Hne. by rewrite lookup_insert_ne.
Qed.

(** X5.  [run_analysis] touches one record: the records of all other
    identifiers stay as they are.  And among identifiers that hold no
    path separator, as [uuid4] draws them and as a route carries them,
    the per-task file of every other identifier stays as it is. *)
Theorem run_analysis_frame
    (self : analyzers) (fs_write : string -> write_outcome) (clock : string)
    (task_id : string) (w : world) :
  let w' := (run_analysis self fs_write clock task_id w).1.2 in
  (forall other, other <> task_id ->
     analysis_tasks w' !! other = analysis_tasks w !! other) /\
  (forall other,
     plain_id task_id = true -> plain_id other = true -> other <> task_id ->
     disk w' !! filename_of other = disk w !! filename_of other).
Proof.
  cbv zeta.
  destruct (analysis_tasks w !! task_id) as [t|] eqn:Ht.
  - destruct (run_analysis_final self fs_write clock task_id w t Ht)
      as (_ & Hother & Hfin).
    split; [exact Hother|]. intros other _ _ Hne.
    destruct (_generate_summary (t_results (after_modules self t)));
      destruct Hfin as [_ ->]; [|reflexivity].
    apply saved_disk_other. intros Heq. apply Hne.
    by apply filename_of_inj.
  - rewrite (run_analysis_absent self fs_write clock task_id w Ht).
    done.
Qed.

(** X6.  A completed task survives the loss of the store: when the
    summary was computed and the per-task file was written, a lookup from
    a store that no longer holds the identifier returns the very record
    that the lookup returned from memory. *)
Theorem completed_task_survives_restart
    (self : analyzers) (fs_write : string -> write_outcome) (clock : string)
    (task_id : string) (w : world) (t : task) (s : summary) :
  analysis_tasks w !! task_id = Some t ->
  _generate_summary (t_results (after_modules self t)) = Ok s ->
  fs_write (filename_of task_id) = WriteOk ->
  let w' := (run_analysis self fs_write clock task_id w).1.2 in
  forall restarted : gmap string task,
    restarted !! task_id = None ->
    (get_analysis_results task_id (World restarted (disk w'))).1.1
    = (get_analysis_results task_id w').1.1 /\
    (get_analysis_results task_id w').1.1
    = Ok (Some (finished clock (after_modules self t) s)).
Proof.
  intros Ht Hs Hfs w' restarted Hgone.
  destruct (run_analysis_final self fs_write clock task_id w t Ht)
    as (_ & _ & Hfin). fold w' in Hfin. rewrite Hs in Hfin.
  destruct Hfin as [Hl Hd].
  destruct (get_analysis_results_run task_id w') as (ev & ->).
  destruct (get_analysis_results_run task_id (World restarted (disk w')))
    as (ev' & ->).
  cbn [fst snd analysis_tasks disk].
  rewrite Hl, Hgone, Hd. unfold saved_disk. rewrite Hfs, lookup_insert_eq.
  done.
Qed.

(** ** What the final record depends on *)

(** The record [run_analysis] leaves in the store. *)
Definition final_record (self : analyzers) (clock : string) (t : task)
  : task :=
  match _generate_summary (t_results (after_modules self t)) with
  | Ok s => finished clock (after_modules self t) s
  | Raise e => failed (after_modules self t) e
  end.

Lemma run_analysis_record
    (self : analyzers) (fs_write : string -> write_outcome) (clock : string)
    (task_id : string) (w : world) (t : task) :
  analysis_tasks w !! task_id = Some t ->
  analysis_tasks (run_analysis self fs_write clock task_id w).1.2 !! task_id
  = Some (final_record self clock t).
Proof.
  intros Ht.
  destruct (run_analysis_final self fs_write clock task_id w t Ht)
    as (_ & _ & Hfin).
  unfold final_record.
  by destruct (_generate_summary (t_results (after_modules self t)));
    destruct Hfin as [-> _].
Qed.

Lemma module_call_request (self : analyzers) (t t' : task) (m : string) :
  t_url t = t_url t' -> t_depth t = t_depth t' -> t_device t = t_device t' ->
  module_call self t m = module_call self t' m.
Proof. unfold module_call. by intros -> -> ->. Qed.

Lemma after_modules_request (self : analyzers) (t : task) :
  t_url (after_modules self t) = t_url t /\
  t_depth (after_modules self t) = t_depth t /\
  t_device (after_modules self t) = t_device t.
Proof.
  unfold after_modules.
  change (t_url t) with (t_url (set_status Running t)).
  change (t_depth t) with (t_depth (set_status Running t)).
  change (t_device t) with (t_device (set_status Running t)).
  generalize (set_status Running t) as t0.
  induction (t_modules t) as [|m ms IH]; intros t0; cbn [foldl]; [done|].
  destruct (IH (dispatched self t0 m)) as (-> & -> & ->).
  unfold dispatched. by destruct (module_call self t0 m).
Qed.

Lemma final_record_fields (self : analyzers) (clock : string) (t : task) :
  let t' := final_record self clock t in
  t_results t' = t_results (after_modules self t) /\
  t_url t' = t_url t /\ t_depth t' = t_depth t /\
  t_device t' = t_device t /\ t_modules t' = t_modules t.
Proof.
  destruct (after_modules_request self t) as (Hu & Hd & Hv).
  destruct (after_modules_frame self t) as (_ & Hm & _).
  unfold final_record.
  destruct (_generate_summary (t_results (after_modules self t)));
    cbn; by rewrite Hu, Hd, Hv, Hm.
Qed.

(** The summary, status and error of the final record are determined by
    the results after the loop and by what the record held before. *)
Lemma final_record_outcome (self : analyzers) (clock : string) (t : task) :
  let t' := final_record self clock t in
  match _generate_summary (t_results (after_modules self t)) with
  | Ok s =>
      t_status t' = Completed /\ t_summary t' = Some s /\
      t_error t' = t_error t /\ t_completed_at t' = Some clock
  | Raise e =>
      t_status t' = Error /\ t_summary t' = t_summary t /\
      t_error t' = Some (str e) /\ t_completed_at t' = t_completed_at t
  end.
Proof.
  destruct (after_modules_frame self t) as (_ & _ & _ & Hs & Hc & He).
  unfold final_record.
  destruct (_generate_summary (t_results (after_modules self t)));
    cbn; by rewrite ?Hs, ?Hc, ?He.
Qed.

Lemma start_then_run_world
    (self : analyzers) (fs_write : string -> write_outcome) (clock : string)
    (uuid4 now url : string) (modules : list string) (depth : Z)
    (device : string) (w : world) :
  ((start_analysis uuid4 now url modules depth device
      ≫= run_analysis self fs_write clock) w).1
  = (run_analysis self fs_write clock uuid4
       (World (<[uuid4 := created url modules depth device now]>
                 (analysis_tasks w)) (disk w))).1.
Proof.
  rewrite bind_run, start_analysis_run. cbv zeta. unfold created.
  by destruct (run_analysis _ _ _ _ _) as [[? ?] ?].
Qed.

(** X7.  A request that names no recognized module, the empty list of
    modules included, ends completed with an empty results mapping and
    the summary of nothing: score 0, no metric, no issue, no
    recommendation. *)
Theorem unrecognized_only_completes
    (self : analyzers) (fs_write : string -> write_outcome) (clock : string)
    (task_id : string) (w : world) (t : task) :
  analysis_tasks w !! task_id = Some t ->
  t_results t = ∅ ->
  (forall m, m ∈ t_modules t -> m ∉ recognized) ->
  exists t',
    analysis_tasks (run_analysis self fs_write clock task_id w).1.2
      !! task_id = Some t' /\
    t_status t' = Completed /\
    t_results t' = ∅ /\
    t_summary t' = Some (Summary (VInt 0) ∅ (Issues 0 0 0 0) []).
Proof.
  intros Ht Hempty Hnone.
  exists (final_record self clock t).
  split; [by apply run_analysis_record|].
  assert (t_results (after_modules self t) = ∅) as Hres.
  { apply map_eq. intros m. rewrite after_modules_results, Hempty.
    destruct (module_call self t m) as [o|] eqn:Hm; [|reflexivity].
    rewrite bool_decide_eq_false_2; [reflexivity|].
    intros Hin. apply (Hnone m Hin).
    apply (module_call_recognized self t). eauto. }
  pose proof (final_record_outcome self clock t) as Hout.
  destruct (final_record_fields self clock t) as (Hr & _).
  cbv zeta in Hout. rewrite Hres in Hout, Hr.
  change (_generate_summary ∅)
    with (Ok (Summary (VInt 0) ∅ (Issues 0 0 0 0) [])) in Hout.
  by destruct Hout as (-> & -> & _).
Qed.

(** X8.  The order of the requested names and their repetition do not
    matter: two requests that differ only in their lists of modules, and
    name the same modules, end with the same results, summary, status and
    error. *)
Theorem module_order_irrelevant
    (self : analyzers) (fs_write : string -> write_outcome) (clock : string)
    (uuid4 now url : string) (ms ms' : list string) (depth : Z)
    (device : string) (w : world) :
  same_names ms ms' ->
  let r := (start_analysis uuid4 now url ms depth device
              ≫= run_analysis self fs_write clock) w in
  let r' := (start_analysis uuid4 now url ms' depth device
               ≫= run_analysis self fs_write clock) w in
  exists t1 t1',
    analysis_tasks r.1.2 !! uuid4 = Some t1 /\
    analysis_tasks r'.1.2 !! uuid4 = Some t1' /\
    t_results t1 = t_results t1' /\
    t_summary t1 = t_summary t1' /\
    t_status t1 = t_status t1' /\
    t_error t1 = t_error t1'.
Proof.
  intros Hsame. cbv zeta. rewrite !start_then_run_world.
  set (t := created url ms depth device now).
  set (t' := created url ms' depth device now).
  set (w1 := World (<[uuid4 := t]> (analysis_tasks w)) (disk w)).
  set (w1' := World (<[uuid4 := t']> (analysis_tasks w)) (disk w)).
  assert (analysis_tasks w1 !! uuid4 = Some t) as Ht
    by apply lookup_insert_eq.
  assert (analysis_tasks w1' !! uuid4 = Some t') as Ht'
    by apply lookup_insert_eq.
  pose proof (run_analysis_record self fs_write clock uuid4 w1 t Ht) as Hl.
  pose proof (run_analysis_record self fs_write clock uuid4 w1' t' Ht')
    as Hl'.
  exists (final_record self clock t), (final_record self clock t').
  split; [exact Hl|]. split; [exact Hl'|].
  assert (t_results (after_modules self t)
          = t_results (after_modules self t')) as Hres.
  { apply map_eq. intros m. rewrite !after_modules_results.
    rewrite (module_call_request self t t' m) by reflexivity.
    destruct (module_call self t' m); [|reflexivity].
    cbn [t_modules t t']. destruct (decide (m ∈ ms)) as [Hin|Hin].
    - rewrite !bool_decide_eq_true_2; [done|by apply Hsame|done].
    - rewrite !bool_decide_eq_false_2; [done| |done].
      intros Hin'. by apply Hin, Hsame. }
  pose proof (final_record_outcome self clock t) as Hout.
  pose proof (final_record_outcome self clock t') as Hout'.
  destruct (final_record_fields self clock t) as (Hr & _).
  destruct (final_record_fields self clock t') as (Hr' & _).
  cbv zeta in Hout, Hout'. rewrite Hres in Hout.
  split; [by rewrite Hr, Hr'|].
  destruct (_generate_summary (t_results (after_modules self t')));
    destruct Hout as (-> & -> & -> & _), Hout' as (-> & -> & -> & _);
    done.
Qed.

(** X9.  Running the analysis of a task a second time changes neither
    its results nor its summary, status or error: the second run ends
    where the first one did. *)
Theorem run_analysis_twice
    (self : analyzers) (fs_write : string -> write_outcome)
    (clock clock' : string) (task_id : string) (w : world) (t : task) :
  analysis_tasks w !! task_id = Some t ->
  let w1 := (run_analysis self fs_write clock task_id w).1.2 in
  let w2 := (run_analysis self fs_write clock' task_id w1).1.2 in
  exists t1 t2,
    analysis_tasks w1 !! task_id = Some t1 /\
    analysis_tasks w2 !! task_id = Some t2 /\
    t_results t2 = t_results t1 /\
    t_summary t2 = t_summary t1 /\
    t_status t2 = t_status t1 /\
    t_error t2 = t_error t1.
Proof.
  intros Ht w1 w2.
  pose proof (run_analysis_record self fs_write clock task_id w t Ht) as Hl1.
  fold w1 in Hl1.
  pose proof (run_analysis_record self fs_write clock' task_id w1 _ Hl1)
    as Hl2.
  fold w2 in Hl2.
  set (t1 := final_record self clock t) in *.
  exists t1, (final_record self clock' t1).
  split; [exact Hl1|]. split; [exact Hl2|].
  destruct (final_record_fields self clock t) as (Hr1 & Hu & Hd & Hv & Hm).
  fold t1 in Hr1, Hu, Hd, Hv, Hm.
  destruct (final_record_fields self clock' t1) as (Hr2 & _).
  assert (t_results (after_modules self t1) = t_results t1) as Hres.
  { apply map_eq. intros m. rewrite after_modules_results, Hm.
    rewrite (module_call_request self t1 t m) by done.
    rewrite Hr1, after_modules_results.
    destruct (module_call self t m); [|reflexivity].
    by destruct (bool_decide (m ∈ t_modules t)). }
  pose proof (final_record_outcome self clock t) as Hout1.
  pose proof (final_record_outcome self clock' t1) as Hout2.
  cbv zeta in Hout1, Hout2. fold t1 in Hout1.
  rewrite Hres, Hr1 in Hout2.
  split; [by rewrite Hr2, Hres|].
  destruct (_generate_summary (t_results (after_modules self t)));
    destruct Hout1 as (H1 & H2 & H3 & _), Hout2 as (-> & -> & -> & _);
    rewrite ?H1, ?H2, ?H3; done.
Qed.

(** ** The class as written *)

Lemma placeholder_summary (results : gmap string pydict)
    (url device : string) (depth : Z) :
  (results !! "performance" = None \/
   results !! "performance"
   = Some (entry_of (placeholder_performance url device))) ->
  (results !! "seo" = None \/
   results !! "seo" = Some (entry_of (placeholder_seo url depth))) ->
  (results !! "accessibility" = None \/
   results !! "accessibility"
   = Some (entry_of (placeholder_accessibility url))) ->
  exists s,
    _generate_summary results = Ok s /\
    recommendations s = [] /\ summary_issues s = Issues 0 0 0 0.
Proof.
  intros [Hp|Hp] [Hs|Hs] [Ha|Ha];
    unfold _generate_summary, collect_score; rewrite Hp, Hs, Ha;
    eexists; (split; [vm_compute; reflexivity|]); split; reflexivity.
Qed.

Lemma placeholder_results (t : task) (m : string) (o : outcome pydict) :
  t_results t = ∅ ->
  module_call placeholders t m = Some o ->
  t_results (after_modules placeholders t) !! m = None \/
  t_results (after_modules placeholders t) !! m = Some (entry_of o).
Proof.
  intros Hempty Hm. rewrite after_modules_results, Hm, Hempty.
  destruct (bool_decide (m ∈ t_modules t)); [by right|by left].
Qed.

(** X10.  With the modules of the source every request ends completed,
    whatever modules it names and whatever the file system does: the
    record has a summary and no error, and the summary has no
    recommendation and no issue. *)
Theorem placeholders_always_complete
    (fs_write : string -> write_outcome) (clock : string)
    (uuid4 now url : string) (modules : list string) (depth : Z)
    (device : string) (w : world) :
  let r := (start_analysis uuid4 now url modules depth device
              ≫= run_analysis placeholders fs_write clock) w in
  r.1.1 = Ok tt /\
  exists t s,
    analysis_tasks r.1.2 !! uuid4 = Some t /\
    t_status t = Completed /\
    t_error t = None /\
    t_summary t = Some s /\
    recommendations s = [] /\
    summary_issues s = Issues 0 0 0 0.
Proof.
  cbv zeta. rewrite start_then_run_world.
  set (t := created url modules depth device now).
  set (w1 := World (<[uuid4 := t]> (analysis_tasks w)) (disk w)).
  assert (analysis_tasks w1 !! uuid4 = Some t) as Ht
    by apply lookup_insert_eq.
  split.
  { exact (proj1 (run_analysis_final placeholders fs_write clock uuid4 w1 t
                    Ht)). }
  destruct (placeholder_summary (t_results (after_modules placeholders t))
              url device depth) as (s & Hs & Hrec & Hiss).
  - by apply placeholder_results.
  - by apply placeholder_results.
  - by apply placeholder_results.
  - exists (final_record placeholders clock t), s.
    split; [by apply run_analysis_record|].
    pose proof (final_record_outcome placeholders clock t) as Hout.
    cbv zeta in Hout. rewrite Hs in Hout.
    destruct Hout as (-> & -> & -> & _). done.
Qed.

(** ** The endpoints of the analysis *)

Lemma analyze_website_run (uuid4 now : string)
    (request : analyze.AnalysisRequest) (w : world) :
  (analyze.analyze_website (Ok tt) uuid4 now request w).1
  = (Returned
       ({| analyze.task_id := uuid4;
           analyze.status := "pending";
           analyze.message :=
             "Analysis started successfully. Use the task ID to check status." |},
        [uuid4]),
     World (<[uuid4 := created (analyze.url request) (analyze.modules request)
                          (analyze.depth request) (analyze.device request)
                          now]> (analysis_tasks w)) (disk w)).
Proof. reflexivity. Qed.

Lemma get_endpoint_run (task_id : string) (w : world) :
  (analyze.get_analysis_results (Ok tt) task_id w).1
  = (match analysis_tasks w !! task_id with
     | Some t => Returned t
     | None =>
         match disk w !! filename_of task_id with
         | Some (FileRecord t) => Returned t
         | Some FileUnreadable | None =>
             HTTPException 404 "Analysis task not found" []
         end
     end, w).
Proof.
  unfold analyze.get_analysis_results, or_500, WebsiteAnalyzer, lift.
  rewrite bind_run.
  destruct (get_analysis_results_run task_id w) as (ev & ->).
  destruct (analysis_tasks w !! task_id) as [t|]; [reflexivity|].
  by destruct (disk w !! filename_of task_id) as [[t|]|].
Qed.

(** X11.  A submission answers with the drawn identifier and status
    pending and schedules the run of exactly that identifier; polling the
    identifier before the run returns the pending record of the request. *)
Theorem submit_then_poll (uuid4 now : string)
    (request : analyze.AnalysisRequest) (w : world) :
  let r := analyze.analyze_website (Ok tt) uuid4 now request w in
  exists resp,
    r.1.1 = Returned (resp, [analyze.task_id resp]) /\
    analyze.task_id resp = uuid4 /\
    analyze.status resp = "pending" /\
    (analyze.get_analysis_results (Ok tt) (analyze.task_id resp) r.1.2).1.1
    = Returned (created (analyze.url request) (analyze.modules request)
                  (analyze.depth request) (analyze.device request) now).
Proof.
  cbv zeta. rewrite analyze_website_run. cbn [fst snd].
  exists {| analyze.task_id := uuid4;
            analyze.status := "pending";
            analyze.message :=
              "Analysis started successfully. Use the task ID to check status." |}.
  split; [reflexivity|]. cbn [analyze.task_id analyze.status].
  split; [reflexivity|]. split; [reflexivity|].
  rewrite get_endpoint_run. cbn [fst analysis_tasks].
  by rewrite lookup_insert_eq.
Qed.

(** X12.  Polling answers 404 exactly for an identifier that is neither
    in the store nor readable from its per-task file; otherwise it returns
    the record, from the store first.  It answers with no other error and
    changes neither the store nor the disk. *)
Theorem poll_not_found (task_id : string) (w : world) :
  let r := analyze.get_analysis_results (Ok tt) task_id w in
  r.1.2 = w /\
  (r.1.1 = HTTPException 404 "Analysis task not found" [] <->
   analysis_tasks w !! task_id = None /\
   (disk w !! filename_of task_id = None \/
    disk w !! filename_of task_id = Some FileUnreadable)) /\
  (forall t,
     r.1.1 = Returned t <->
     analysis_tasks w !! task_id = Some t \/
     (analysis_tasks w !! task_id = None /\
      disk w !! filename_of task_id = Some (FileRecord t))) /\
  ((exists t, r.1.1 = Returned t) \/
   r.1.1 = HTTPException 404 "Analysis task not found" []).
Proof.
  cbv zeta. rewrite get_endpoint_run. cbn [fst snd].
  split; [reflexivity|].
  destruct (analysis_tasks w !! task_id) as [t0|];
    [|destruct (disk w !! filename_of task_id) as [[t0|]|]].
  - split; [split; [discriminate|intros [[=] _]]|].
    split; [|eauto].
    intros t. split; [intros [= ->]; by left|].
    by intros [[= ->]|[[=] _]].
  - split; [split; [discriminate|intros [_ [[=]|[=]]]]|].
    split; [|eauto].
    intros t. split; [intros [= ->]; by right|].
    by intros [[=]|[_ [= ->]]].
  - split; [split; [auto|reflexivity]|].
    split; [|by right].
    intros t. split; [discriminate|]. by intros [[=]|[_ [=]]].
  - split; [split; [auto|reflexivity]|].
    split; [|by right].
    intros t. split; [discriminate|]. by intros [[=]|[_ [=]]].
Qed.

(** X13.  When the storage directory cannot be made, both endpoints
    answer 500 with the message of the failure and do nothing else: a
    submission creates no record and schedules no run, and polling fails
    even for an identifier that is in the store. *)
Theorem storage_failure_is_500 (e : exn) (uuid4 now : string)
    (request : analyze.AnalysisRequest) (task_id : string) (w : world) :
  (analyze.analyze_website (Raise e) uuid4 now request w).1
  = (HTTPException 500 ("Failed to start analysis: " +:+ str e) [], w) /\
  (analyze.get_analysis_results (Raise e) task_id w).1
  = (HTTPException 500 ("Failed to retrieve analysis results: " +:+ str e)
       [], w).
Proof. split; reflexivity. Qed.

(** X14.  Submission, the scheduled run and a poll, in this order: the
    poll returns the record the run left, which is the record of the
    request in a final status, completed or error. *)
Theorem submit_run_poll
    (self : analyzers) (fs_write : string -> write_outcome) (clock : string)
    (uuid4 now : string) (request : analyze.AnalysisRequest) (w : world) :
  let r := analyze.analyze_website (Ok tt) uuid4 now request w in
  exists resp,
    r.1.1 = Returned (resp, [analyze.task_id resp]) /\
    let w2 := (run_analysis self fs_write clock (analyze.task_id resp)
                 r.1.2).1.2 in
    exists t,
      (analyze.get_analysis_results (Ok tt) (analyze.task_id resp) w2).1.1
      = Returned t /\
      final_status (t_status t) /\
      t_url t = analyze.url request /\
      t_modules t = analyze.modules request /\
      (t_status t = Completed <-> exists s, t_summary t = Some s).
Proof.
  cbv zeta. rewrite analyze_website_run. cbn [fst snd].
  exists {| analyze.task_id := uuid4;
            analyze.status := "pending";
            analyze.message :=
              "Analysis started successfully. Use the task ID to check status." |}.
  split; [reflexivity|]. cbn [analyze.task_id].
  set (t0 := created (analyze.url request) (analyze.modules request)
               (analyze.depth request) (analyze.device request) now).
  set (w1 := World (<[uuid4 := t0]> (analysis_tasks w)) (disk w)).
  assert (analysis_tasks w1 !! uuid4 = Some t0) as Ht0
    by apply lookup_insert_eq.
  pose proof (run_analysis_record self fs_write clock uuid4 w1 t0 Ht0) as Hl.
  exists (final_record self clock t0).
  rewrite get_endpoint_run. cbn [fst]. rewrite Hl.
  split; [reflexivity|].
  pose proof (final_record_outcome self clock t0) as Hout.
  destruct (final_record_fields self clock t0) as (_ & Hu & _ & _ & Hm).
  cbv zeta in Hout.
  destruct (_generate_summary (t_results (after_modules self t0)));
    destruct Hout as (Hst & Hsum & _).
  - split; [by left|]. split; [exact Hu|]. split; [exact Hm|].
    split; eauto.
  - split; [by right|]. split; [exact Hu|]. split; [exact Hm|].
    rewrite Hst, Hsum. split; [discriminate|]. intros [s Hs]. discriminate.
Qed.

(** ** The token endpoints *)

Lemma str_split_nonempty (sep : ascii) (s : string) :
  exists field fields, str_split sep s = field :: fields.
Proof.
  destruct s as [|a s]; cbn [str_split]; [eauto|].
  destruct (Ascii.eqb a sep); [eauto|].
  destruct (str_split sep s); eauto.
Qed.

Lemma prefix_app (p s : string) :
  String.prefix p s = true -> exists rest, s = p +:+ rest.
Proof.
  revert s. induction p as [|a p IH]; intros s H.
  - by exists s.
  - destruct s as [|b s]; [discriminate|]. cbn [String.prefix] in H.
    destruct (Ascii.ascii_dec a b) as [->|]; [|discriminate].
    destruct (IH s H) as [rest ->]. by exists rest.
Qed.

Lemma prefix_app_true (p rest : string) :
  String.prefix p (p +:+ rest) = true.
Proof.
  induction p as [|a p IH].
  - by destruct rest.
  - change (String a p +:+ rest) with (String a (p +:+ rest)).
    cbn [String.prefix]. by destruct (Ascii.ascii_dec a a).
Qed.

(** The first field is the text before the first separator. *)
Lemma str_split_first (sep : ascii) (s field : string)
    (fields : list string) :
  str_split sep s = field :: fields ->
  s = field \/ exists rest, s = field +:+ String sep rest.
Proof.
  revert field fields. induction s as [|a s IH]; intros field fields H.
  - injection H as <- _. by left.
  - cbn [str_split] in H. destruct (Ascii.eqb_spec a sep) as [->|_].
    + injection H as <- _. right. by exists s.
    + destruct (str_split_nonempty sep s) as (f & fs & Hs).
      rewrite Hs in H. injection H as <- _.
      destruct (IH f fs Hs) as [->|[rest ->]]; [by left|].
      right. by exists rest.
Qed.

Lemma token_fields (rest : string) :
  str_split "-" ("fake-token-" +:+ rest)
  = "fake" :: "token" :: str_split "-" rest.
Proof. vm_compute. reflexivity. Qed.

Lemma read_users_me_prefixed (rest : string) :
  auth.read_users_me ("fake-token-" +:+ rest)
  = match str_split "-" rest with
    | name :: _ =>
        match auth.fake_users_db !! name with
        | None => auth.unauthorized "Invalid authentication credentials"
        | Some u => Returned (auth.user u)
        end
    | [] => Uncaught (Exc "IndexError" "list index out of range")
    end.
Proof.
  unfold auth.read_users_me. rewrite token_fields.
  rewrite prefix_app_true.
  cbn [negb nth_error]. by destruct (str_split "-" rest).
Qed.

(** X15.  [read_users_me] answers every token with a user or with 401:
    the field that [token.split("-")[2]] reads always exists once the
    prefix has been checked, so no index error escapes. *)
Theorem read_users_me_total (token : string) :
  (exists u, auth.read_users_me token = Returned u) \/
  auth.read_users_me token
  = auth.unauthorized "Invalid authentication credentials".
Proof.
  destruct (String.prefix "fake-token-" token) eqn:Hp.
  - destruct (prefix_app _ _ Hp) as [rest ->].
    rewrite read_users_me_prefixed.
    destruct (str_split_nonempty "-" rest) as (name & fields & ->).
    destruct (auth.fake_users_db !! name); eauto.
  - right. unfold auth.read_users_me. by rewrite Hp.
Qed.

(** X16.  A token issued by [login_for_access_token] is accepted by
    [read_users_me], which returns the user that logged in; a login
    succeeds only with the password "password". *)
Theorem login_then_me (name password timestamp : string)
    (tok : auth.Token) :
  auth.login_for_access_token name password timestamp = Returned tok ->
  password = "password" /\
  exists entry,
    auth.fake_users_db !! name = Some entry /\
    auth.username (auth.user entry) = name /\
    auth.read_users_me (auth.access_token tok)
    = Returned (auth.user entry).
Proof.
  unfold auth.login_for_access_token.
  destruct (auth.fake_users_db !! name) as [entry|] eqn:Hdb; [|discriminate].
  destruct (String.eqb_spec password "password") as [->|_];
    cbn [negb]; [|discriminate].
  intros [= <-]. split; [reflexivity|].
  exists entry. split; [reflexivity|].
  unfold auth.fake_users_db in Hdb.
  apply lookup_singleton_Some in Hdb as [<- <-].
  split; [reflexivity|].
  cbn [auth.access_token]. rewrite read_users_me_prefixed.
  assert (str_split "-" ("admin" +:+ "-" +:+ timestamp)
          = "admin" :: str_split "-" timestamp) as ->
    by (vm_compute; reflexivity).
  reflexivity.
Qed.

(** X17.  The tokens [read_users_me] accepts are exactly the text
    "fake-token-admin" and the texts that start with "fake-token-admin-":
    what follows the user name is never looked at. *)
Theorem accepted_tokens (token : string) (u : auth.User) :
  auth.read_users_me token = Returned u <->
  (token = "fake-token-admin" \/
   String.prefix "fake-token-admin-" token = true) /\
  exists entry,
    auth.fake_users_db !! "admin" = Some entry /\ u = auth.user entry.
Proof.
  split.
  - intros H. destruct (String.prefix "fake-token-" token) eqn:Hp.
    + destruct (prefix_app _ _ Hp) as [rest ->].
      rewrite read_users_me_prefixed in H.
      destruct (str_split "-" rest) as [|name fields] eqn:Hs;
        [discriminate|].
      destruct (auth.fake_users_db !! name) as [entry|] eqn:Hdb;
        [|discriminate].
      injection H as <-.
      pose proof Hdb as Hdb'. unfold auth.fake_users_db in Hdb'.
      apply lookup_singleton_Some in Hdb' as [<- _].
      split; [|eauto].
      destruct (str_split_first _ _ _ _ Hs) as [->|[rest' ->]].
      * by left.
      * right.
        change ("fake-token-" +:+ "admin" +:+ String "-" rest')
          with ("fake-token-admin-" +:+ rest').
        apply prefix_app_true.
    + unfold auth.read_users_me in H. rewrite Hp in H. discriminate.
  - intros [Htok (entry & Hdb & ->)].
    assert (exists rest,
              token = "fake-token-" +:+ rest /\
              exists fields, str_split "-" rest = "admin" :: fields)
      as (rest & -> & fields & Hs).
    { destruct Htok as [->|Hp].
      - exists "admin". split; [reflexivity|]. by exists [].
      - destruct (prefix_app _ _ Hp) as [rest ->].
        exists ("admin-" +:+ rest). split; [reflexivity|].
        exists (str_split "-" rest). vm_compute. reflexivity. }
    rewrite read_users_me_prefixed, Hs, Hdb. reflexivity.
Qed.

(** ** Runs of records that are not fresh, and the warnings of a run *)

(** X18.  [run_analysis] does not look at the status it finds: run on a
    record that is already completed or in error, it writes running again
    before it ends in a final status, so the statuses of that record no
    longer move forward only. *)
Theorem finished_task_runs_again
    (self : analyzers) (fs_write : string -> write_outcome) (clock : string)
    (task_id : string) (w : world) (t : task) :
  analysis_tasks w !! task_id = Some t ->
  final_status (t_status t) ->
  let h := status_history task_id
             (run_analysis self fs_write clock task_id w).2 in
  (exists n final,
     h = replicate (S n) Running ++ [final; final] /\ final_status final) /\
  ~ StronglySorted status_forward (t_status t :: h).
Proof.
  intros Ht Hfinal. cbv zeta.
  destruct (run_status_history self fs_write clock task_id w t Ht)
    as (n & ->).
  split.
  - exists n. eexists. split; [reflexivity|].
    destruct (_generate_summary _); [by left|by right].
  - intros Hsorted. apply StronglySorted_inv in Hsorted as [_ Hall].
    cbn [replicate app] in Hall. apply Forall_cons in Hall as [Hrun _].
    unfold status_forward in Hrun.
    destruct Hfinal as [Heq|Heq]; rewrite Heq in Hrun; discriminate.
Qed.

Lemma warnings_app (evs1 evs2 : list event) :
  warnings (evs1 ++ evs2) = warnings evs1 ++ warnings evs2.
Proof. apply omap_app. Qed.

Lemma dispatch_warnings (self : analyzers) (task_id m : string) (t : task)
    (ts : gmap string task) (d : gmap string file) :
  warnings (dispatch self task_id m (World (<[task_id := t]> ts) d)).2
  = match module_call self t m with
    | Some _ => []
    | None => ["Unknown module '" +:+ m +:+ "', skipping"]
    end.
Proof.
  unfold dispatch, module_call.
  destruct (String.eqb m "performance");
    [|destruct (String.eqb m "seo");
      [|destruct (String.eqb m "accessibility");
        [|destruct (String.eqb m "technology");
          [|destruct (String.eqb m "carbon")]]]].
  all: run_steps; unfold lift, logger, mret, M_ret; run_steps.
  all: try match goal with
       | |- context [match ?o with Ok _ => _ | Raise _ => _ end] =>
           lazymatch type of o with
           | outcome pydict => destruct o
           end
       end.
  all: run_steps; unfold lift, logger, mret, M_ret; run_steps.
  all: reflexivity.
Qed.

Lemma for_each_warnings (self : analyzers) (task_id : string)
    (ms : list string) :
  forall (t : task) (ts : gmap string task) (d : gmap string file),
    warnings
      (for_each ms (dispatch self task_id) (World (<[task_id := t]> ts) d)).2
    = (fun m => "Unknown module '" +:+ m +:+ "', skipping")
        <$> filter (fun m => m ∉ recognized) ms.
Proof.
  induction ms as [|m ms IH]; intros t ts d; [reflexivity|].
  cbn [for_each]. rewrite bind_run.
  pose proof (dispatch_warnings self task_id m t ts d) as Hw.
  destruct (dispatch_run self task_id m t ts d) as (ev1 & Hd & _).
  rewrite Hd in Hw |- *. cbn [snd] in Hw.
  specialize (IH (dispatched self t m) ts d).
  destruct (for_each ms (dispatch self task_id) _) as [[o w2] ev2].
  cbn [snd] in IH |- *. rewrite warnings_app, Hw, IH.
  destruct (module_call self t m) as [o'|] eqn:Hm.
  - rewrite filter_cons_False; [reflexivity|].
    intros Hnot. apply Hnot, (module_call_recognized self t). eauto.
  - rewrite filter_cons_True; [reflexivity|].
    intros Hrec. apply (module_call_recognized self t) in Hrec as [? ?].
    congruence.
Qed.

Lemma warnings_save_events (fs_write : string -> write_outcome)
    (task_id : string) :
  warnings (save_events fs_write task_id) = [].
Proof. unfold save_events. by destruct (fs_write (filename_of task_id)). Qed.

(** X19.  A run logs one warning for each requested name that the
    dispatcher does not recognize, in the order of the request and once
    per occurrence, and no other warning. *)
Theorem run_analysis_warnings
    (self : analyzers) (fs_write : string -> write_outcome) (clock : string)
    (task_id : string) (w : world) (t : task) :
  analysis_tasks w !! task_id = Some t ->
  warnings (run_analysis self fs_write clock task_id w).2
  = (fun m => "Unknown module '" +:+ m +:+ "', skipping")
      <$> filter (fun m => m ∉ recognized) (t_modules t).
Proof.
  intros Ht. rewrite (world_present w task_id t Ht) at 1.
  pose proof (for_each_warnings self task_id (t_modules t)
                (set_status Running t) (analysis_tasks w) (disk w)) as Hw.
  destruct (for_each_dispatch_run self task_id (t_modules t)
              (set_status Running t) (analysis_tasks w) (disk w))
    as (loop_ev & Hloop & _).
  rewrite Hloop in Hw. cbn [snd] in Hw.
  unfold run_analysis. run_steps. cbn [negb]. run_steps.
  unfold logger at 1. run_steps.
  change (t_modules (set_status Running t)) with (t_modules t).
  rewrite Hloop. run_steps. unfold lift.
  destruct (_generate_summary _) as [s|e].
  - run_steps. rewrite save_results_run. unfold logger. run_steps.
    cbn [snd]. rewrite !warnings_app, Hw, warnings_save_events.
    cbn. by rewrite app_nil_r.
  - run_steps. unfold logger. run_steps.
    cbn [snd]. rewrite !warnings_app, Hw. cbn. by rewrite ?app_nil_r.
Qed.

(** * Instances

    The theorems above at concrete records, analyzers and file systems;
    each hypothesis is discharged by evaluating the definitions. *)

Lemma example_world_task :
  analysis_tasks example_world !! "task-1" = Some example_task.
Proof. vm_compute. reflexivity. Defined.

Lemma overall_score_rounded_mean_witness :
  (exists s q,
     _generate_summary placeholder_scores = Ok s /\
     as_number (overall_score s) = Some q /\
     nearest_binary64 (arithmetic_mean (inject_Z <$> [85; 78; 72])) q) /\
  (exists s q,
     _generate_summary example_results = Ok s /\
     as_number (overall_score s) = Some q /\
     (q == 163 # 2)%Q) /\
  _generate_summary huge_score
  = Raise (Exc "OverflowError"
             "integer division result too large for a float") /\
  (exists s,
     _generate_summary {["performance" := error_marker "boom"]} = Ok s /\
     overall_score s = VInt 0).
Proof.
  split; [|split; [|split]].
  - destruct (overall_score_rounded_mean placeholder_scores) as [H _].
    destruct (H [85; 78; 72]) as (Hnear & Hret & _);
      [vm_compute; reflexivity|].
    destruct Hret as [s Hs].
    + vm_compute. reflexivity.
    + intros perf pm Hp Hpm. vm_compute in Hp. injection Hp as <-.
      vm_compute in Hpm. discriminate Hpm.
    + destruct (Hnear s Hs) as (q & Hq & Hn & _).
      exists s, q. auto.
  - destruct (overall_score_rounded_mean example_results) as [H _].
    destruct (H [85; 78]) as (Hnear & Hret & _);
      [vm_compute; reflexivity|].
    destruct Hret as [s Hs].
    + vm_compute. reflexivity.
    + intros perf pm Hp Hpm. vm_compute in Hp. injection Hp as <-.
      vm_compute in Hpm. injection Hpm as <-.
      eexists. split; [reflexivity|].
      intros v Hv. vm_compute in Hv. injection Hv as <-.
      eexists. reflexivity.
    + destruct (Hnear s Hs) as (q & Hq & _ & Hexact & _).
      exists s, q. split; [exact Hs|]. split; [exact Hq|].
      apply Hexact. exists 163, (-1).
      split; [lia|]. split; [lia|]. vm_compute. reflexivity.
  - destruct (overall_score_rounded_mean huge_score) as [H _].
    destruct (H [10 ^ 400]) as (_ & _ & Hraise);
      [vm_compute; reflexivity|].
    apply Hraise. vm_compute. discriminate.
  - destruct (overall_score_rounded_mean
                {["performance" := error_marker "boom"]})
      as (_ & Hzero).
    apply Hzero.
    + right. exists "boom". vm_compute. reflexivity.
    + left. vm_compute. reflexivity.
    + left. vm_compute. reflexivity.
Defined.

Lemma completed_results_keys_witness :
  exists t',
    analysis_tasks
      (run_analysis placeholders fs_ok "2024-05-01T10:00:07" "task-1"
         example_world).1.2 !! "task-1" = Some t' /\
    t_status t' = Completed /\
    dom (t_results t') = {["performance"; "seo"]} /\
    t_results t' !! "bogus" = None.
Proof.
  destruct (completed_results_keys placeholders fs_ok "2024-05-01T10:00:07"
              "task-1" example_world example_task example_world_task
              eq_refl) as (t' & Hl & Hkeys).
  exists t'. split; [exact Hl|].
  assert (t_status t' = Completed) as Hdone.
  { vm_compute in Hl. injection Hl as <-. reflexivity. }
  destruct (Hkeys Hdone) as (Hdom & _ & Hnone).
  split; [exact Hdone|]. split.
  - rewrite Hdom. vm_compute. reflexivity.
  - apply Hnone. vm_compute. intros H. discriminate H.
Defined.

Lemma module_failure_isolated_witness :
  let r := run_analysis seo_down fs_ok "2024-05-01T10:00:07" "task-1"
             example_world in
  let r' := run_analysis placeholders fs_ok "2024-05-01T10:00:07" "task-1"
              example_world in
  r.1.1 = Ok tt /\
  exists t1 t1',
    analysis_tasks r.1.2 !! "task-1" = Some t1 /\
    analysis_tasks r'.1.2 !! "task-1" = Some t1' /\
    t_status t1 = Completed /\
    t_results t1 !! "seo" = Some (error_marker "seo crawl timed out") /\
    t_results t1 !! "performance" = t_results t1' !! "performance".
Proof.
  destruct (module_failure_isolated seo_down placeholders fs_ok
              "2024-05-01T10:00:07" "task-1" example_world example_task
              "seo" (Exc "TimeoutError" "seo crawl timed out"))
    as (_ & Hok & t1 & t1' & Hl & Hl' & Hseo & Hothers & _ & Hdone).
  - exact example_world_task.
  - vm_compute. apply elem_of_cons. right.
    apply elem_of_cons. right. apply elem_of_cons. by left.
  - reflexivity.
  - intros m' Hne. unfold module_call. cbn.
    destruct (String.eqb m' "performance"); [reflexivity|].
    destruct (String.eqb_spec m' "seo"); [contradiction|reflexivity].
  - cbv zeta. split; [exact Hok|]. exists t1, t1'.
    split; [exact Hl|]. split; [exact Hl'|]. split; [|split].
    + eapply Hdone. vm_compute in Hl. injection Hl as <-.
      vm_compute. reflexivity.
    + exact Hseo.
    + apply Hothers. discriminate.
Defined.

Lemma summary_failure_sets_error_witness :
  let r := run_analysis seo_textual fs_ok "2024-05-01T10:00:07" "task-1"
             example_world in
  r.1.1 = Ok tt /\
  disk r.1.2 = ∅ /\
  exists t',
    analysis_tasks r.1.2 !! "task-1" = Some t' /\
    t_status t' = Error /\
    t_error t' = Some "unsupported operand type(s) for +" /\
    t_summary t' = None /\
    t_completed_at t' = None.
Proof.
  destruct (summary_failure_sets_error seo_textual fs_ok
              "2024-05-01T10:00:07" "task-1" example_world example_task
              (Exc "TypeError" "unsupported operand type(s) for +"))
    as (Hok & Hdisk & t' & Hl & _ & Hst & Herr & Hsum & Hcomp).
  - exact example_world_task.
  - vm_compute. reflexivity.
  - cbv zeta. split; [exact Hok|]. split; [exact Hdisk|].
    exists t'. auto.
Defined.

Lemma run_analysis_missing_witness :
  run_analysis placeholders fs_ok "2024-05-01T10:00:07" "task-2"
    example_world
  = (Ok tt, example_world, [Logged ERROR "Task task-2 not found"]).
Proof.
  apply (run_analysis_missing placeholders fs_ok "2024-05-01T10:00:07"
           "task-2" example_world).
  vm_compute. reflexivity.
Defined.

Lemma errored_task_not_persisted_witness :
  let w' := (run_analysis seo_textual fs_ok "2024-05-01T10:00:07" "task-1"
               example_world).1.2 in
  disk w' = ∅ /\
  (get_analysis_results "task-1" (World ∅ (disk w'))).1.1 = Ok None.
Proof.
  destruct (errored_task_not_persisted seo_textual fs_ok
              "2024-05-01T10:00:07" "task-1" example_world example_task
              (failed (after_modules seo_textual example_task)
                 (Exc "TypeError" "unsupported operand type(s) for +")))
    as (Hdisk & Hget).
  - exact example_world_task.
  - vm_compute. reflexivity.
  - reflexivity.
  - cbv zeta. split; [exact Hdisk|].
    apply Hget; vm_compute; reflexivity.
Defined.

Lemma save_failure_swallowed_witness :
  let r := run_analysis placeholders fs_read_only "2024-05-01T10:00:07"
             "task-1" example_world in
  r.1.1 = Ok tt /\
  disk r.1.2 = ∅ /\
  exists t',
    analysis_tasks r.1.2 !! "task-1" = Some t' /\
    t_status t' = Completed /\
    t_summary t' = Some example_summary /\
    t_completed_at t' = Some "2024-05-01T10:00:07".
Proof.
  destruct (save_failure_swallowed placeholders fs_read_only
              "2024-05-01T10:00:07" "task-1" example_world example_task
              example_summary (Exc "PermissionError" "Permission denied"))
    as (Hok & _ & _ & t' & Hl & Hst & Hsum & Hcomp & _).
  - exact example_world_task.
  - vm_compute. reflexivity.
  - left. reflexivity.
  - cbv zeta. split; [exact Hok|]. split; [vm_compute; reflexivity|].
    exists t'. auto.
Defined.

Lemma recommendation_rule_witness :
  (exists s,
     _generate_summary slow_paint_results = Ok s /\
     recommendations s = [fcp_recommendation] /\
     summary_issues s = Issues 0 1 0 0) /\
  (exists s,
     _generate_summary threshold_paint_results = Ok s /\
     recommendations s = [] /\
     summary_issues s = Issues 0 0 0 0).
Proof.
  split.
  - exists (Summary (VInt 0) ∅ (Issues 0 1 0 0) [fcp_recommendation]).
    assert (_generate_summary slow_paint_results
            = Ok (Summary (VInt 0) ∅ (Issues 0 1 0 0) [fcp_recommendation]))
      as Hs by (vm_compute; reflexivity).
    split; [exact Hs|].
    destruct (recommendation_rule _ _ Hs) as [Hr Hi].
    split; [rewrite Hr|rewrite Hi]; vm_compute; reflexivity.
  - exists (Summary (VInt 0) ∅ (Issues 0 0 0 0) []).
    assert (_generate_summary threshold_paint_results
            = Ok (Summary (VInt 0) ∅ (Issues 0 0 0 0) []))
      as Hs by (vm_compute; reflexivity).
    split; [exact Hs|].
    destruct (recommendation_rule _ _ Hs) as [Hr Hi].
    split; [rewrite Hr|rewrite Hi]; vm_compute; reflexivity.
Defined.

Lemma example_results_summary :
  _generate_summary example_results = Ok example_summary.
Proof. vm_compute. reflexivity. Defined.

Lemma summary_metrics_witness :
  metrics example_summary !! "performance" = Some (VInt 85) /\
  metrics example_summary !! "seo" = Some (VInt 78) /\
  metrics example_summary !! "accessibility" = None.
Proof.
  destruct (summary_metrics example_results example_summary
              example_results_summary) as (Hp & Hs & Ha & _).
  rewrite Hp, Hs, Ha. repeat split; vm_compute; reflexivity.
Defined.

Lemma overall_score_bounds_witness :
  exists q,
    as_number (overall_score example_summary) = Some q /\
    (0 <= q /\ q <= 100)%Q.
Proof.
  apply (overall_score_bounds example_results example_summary
           [85; 78] 0 100).
  - exact example_results_summary.
  - vm_compute. reflexivity.
  - discriminate.
  - exists 0, 0. split; [lia|]. split; [lia|]. vm_compute. reflexivity.
  - exists 100, 0. split; [lia|]. split; [lia|]. vm_compute. reflexivity.
  - repeat constructor; vm_compute; discriminate.
Defined.

Lemma run_analysis_frame_witness :
  disk (run_analysis placeholders fs_ok "2024-05-01T10:00:07" "task-1"
          example_world).1.2 !! filename_of "task-2"
  = disk example_world !! filename_of "task-2".
Proof.
  apply (run_analysis_frame placeholders fs_ok "2024-05-01T10:00:07"
           "task-1" example_world).
  - vm_compute. reflexivity.
  - vm_compute. reflexivity.
  - discriminate.
Defined.

Lemma completed_task_survives_restart_witness :
  (get_analysis_results "task-1" (World ∅ (disk finished_world))).1.1
  = (get_analysis_results "task-1" finished_world).1.1 /\
  exists t,
    (get_analysis_results "task-1" finished_world).1.1 = Ok (Some t) /\
    t_status t = Completed.
Proof.
  assert (_generate_summary
            (t_results (after_modules placeholders example_task))
          = Ok example_summary) as Hs by (vm_compute; reflexivity).
  destruct (completed_task_survives_restart placeholders fs_ok
              "2024-05-01T10:00:07" "task-1" example_world example_task
              example_summary example_world_task Hs eq_refl
              ∅ (lookup_empty "task-1")) as [Hsame Hmem].
  split; [exact Hsame|]. eexists. split; [exact Hmem|reflexivity].
Defined.

Lemma unrecognized_only_completes_witness :
  exists t',
    analysis_tasks
      (run_analysis seo_down fs_ok "2024-05-01T10:00:07" "task-9"
         unknown_world).1.2 !! "task-9" = Some t' /\
    t_status t' = Completed /\
    t_results t' = ∅ /\
    t_summary t' = Some (Summary (VInt 0) ∅ (Issues 0 0 0 0) []).
Proof.
  apply (unrecognized_only_completes seo_down fs_ok "2024-05-01T10:00:07"
           "task-9" unknown_world unknown_task).
  - vm_compute. reflexivity.
  - reflexivity.
  - intros m Hin. vm_compute in Hin.
    apply elem_of_cons in Hin as [->|Hin];
      [|apply elem_of_cons in Hin as [->|Hin];
        [|by apply elem_of_nil in Hin]];
      vm_compute; intros H; discriminate H.
Defined.

Lemma module_order_irrelevant_witness :
  exists t1 t1',
    analysis_tasks
      ((start_analysis "task-1" "2024-05-01T10:00:00" "https://example.com"
          ["seo"; "performance"; "seo"] 1 "desktop"
          ≫= run_analysis seo_down fs_ok "2024-05-01T10:00:07")
         (World ∅ ∅)).1.2 !! "task-1" = Some t1 /\
    analysis_tasks
      ((start_analysis "task-1" "2024-05-01T10:00:00" "https://example.com"
          ["performance"; "seo"] 1 "desktop"
          ≫= run_analysis seo_down fs_ok "2024-05-01T10:00:07")
         (World ∅ ∅)).1.2 !! "task-1" = Some t1' /\
    t_results t1 = t_results t1' /\
    t_summary t1 = t_summary t1'.
Proof.
  destruct (module_order_irrelevant seo_down fs_ok "2024-05-01T10:00:07"
              "task-1" "2024-05-01T10:00:00" "https://example.com"
              ["seo"; "performance"; "seo"] ["performance"; "seo"]
              1 "desktop" (World ∅ ∅))
    as (t1 & t1' & Hl & Hl' & Hr & Hs & _).
  - intros m. rewrite !elem_of_cons, elem_of_nil. tauto.
  - exists t1, t1'. auto.
Defined.

Lemma run_analysis_twice_witness :
  exists t1 t2,
    analysis_tasks finished_world !! "task-1" = Some t1 /\
    analysis_tasks
      (run_analysis placeholders fs_ok "2024-05-01T11:30:00" "task-1"
         finished_world).1.2 !! "task-1" = Some t2 /\
    t_results t2 = t_results t1 /\
    t_summary t2 = t_summary t1 /\
    t_status t2 = t_status t1.
Proof.
  destruct (run_analysis_twice placeholders fs_ok "2024-05-01T10:00:07"
              "2024-05-01T11:30:00" "task-1" example_world example_task
              example_world_task)
    as (t1 & t2 & Hl1 & Hl2 & Hr & Hs & Hst & _).
  exists t1, t2. auto.
Defined.

Lemma login_then_me_witness :
  auth.read_users_me "fake-token-admin-1714557600.123456"
  = Returned {| auth.username := "admin";
                auth.email := Some "admin@example.com";
                auth.disabled := Some false |}.
Proof.
  destruct (login_then_me "admin" "password" "1714557600.123456"
              {| auth.access_token := "fake-token-admin-1714557600.123456";
                 auth.token_type := "bearer" |})
    as (_ & entry & Hdb & _ & Hme).
  - vm_compute. reflexivity.
  - vm_compute in Hdb. injection Hdb as <-. exact Hme.
Defined.

Lemma finished_task_runs_again_witness :
  let h := status_history "task-1"
             (run_analysis placeholders fs_ok "2024-05-01T11:30:00" "task-1"
                finished_world).2 in
  (exists n final,
     h = replicate (S n) Running ++ [final; final] /\ final_status final) /\
  ~ StronglySorted status_forward (Completed :: h).
Proof.
  apply (finished_task_runs_again placeholders fs_ok "2024-05-01T11:30:00"
           "task-1" finished_world
           (final_record placeholders "2024-05-01T10:00:07" example_task)).
  - vm_compute. reflexivity.
  - left. vm_compute. reflexivity.
Defined.

Lemma run_analysis_warnings_witness :
  warnings
    (run_analysis placeholders fs_ok "2024-05-01T10:00:07" "task-1"
       example_world).2
  = ["Unknown module 'bogus', skipping"].
Proof.
  rewrite (run_analysis_warnings placeholders fs_ok "2024-05-01T10:00:07"
             "task-1" example_world example_task example_world_task).
  vm_compute. reflexivity.
Defined.
